(** * mat_to_hdf5: MATLAB containers to HDF5

    A shallow embedding of [mat_to_hdf5.py] and the properties of its
    entry transcoder ([convert_mat_to_hdf5]), of its string flattening
    helper ([_convert_strings_to_utf8]) and of its source selector
    ([get_mat_files]) and entry point ([main]).

    Conventions of the embedding:
    - a Python [str] is a [string] and a character is its code point; the
      embedding covers the code points below 256.  On this range the class
      [\d] of [re] is exactly ['0'..'9'], and the ASCII codec accepts
      exactly the code points below 128;
    - a [dict] is the list of its items in iteration (insertion) order;
    - an exception is a value; a computation that may raise returns a
      [result], and [try]/[except] is a [match] on it;
    - an array of dtype [object] is the sequence of items that iterating
      over it yields; the items covered are wrappers around text (lists and
      one-dimensional arrays of str), bare str and floats;
    - an HDF5 file is the sequence of its datasets, in creation order, each
      under its name.  [create_dataset] raises instead of creating a dataset
      when the data is an array of str (dtype 'U'), when the name is empty
      and when the file already has a dataset of that name.  A name is taken
      as a whole: the groups that a name with "/" stands for are not
      covered. *)

From Stdlib Require Import String Ascii List ZArith Bool Arith Lia.
From Stdlib Require Import DecimalString.
Import ListNotations.
Local Open Scope string_scope.
Local Open Scope list_scope.

(* ================================================================= *)
(** ** Python: exceptions, results, text *)

Module Py.

(** The exception classes the program meets.  [UnicodeEncodeError] is a
    subclass of [ValueError]; all of them are subclasses of [Exception]. *)
Inductive exn : Type :=
| ValueError (msg : string)
| UnicodeEncodeError (msg : string)
| IndexError (msg : string)
| TypeError (msg : string).

(** [str(e)] *)
Definition exn_str (e : exn) : string :=
  match e with
  | ValueError m | UnicodeEncodeError m | IndexError m | TypeError m => m
  end.

(** [isinstance(e, ValueError)], the test of [except ValueError]. *)
Definition is_ValueError (e : exn) : bool :=
  match e with
  | ValueError _ | UnicodeEncodeError _ => true
  | IndexError _ | TypeError _ => false
  end.

Inductive result (A : Type) : Type :=
| Return (a : A)
| Raise (e : exn).
Arguments Return {A} a.
Arguments Raise {A} e.

Definition bind {A B : Type} (m : result A) (k : A -> result B) : result B :=
  match m with
  | Return a => k a
  | Raise e => Raise e
  end.

(** [[f(x) for x in l]]: the elements are evaluated in order and the first
    exception ends the comprehension. *)
Fixpoint comprehension {A B : Type} (f : A -> result B) (l : list A)
  : result (list B) :=
  match l with
  | [] => Return []
  | x :: l' =>
      bind (f x) (fun y =>
      bind (comprehension f l') (fun ys => Return (y :: ys)))
  end.

Definition is_digit (c : ascii) : bool :=
  (48 <=? nat_of_ascii c)%nat && (nat_of_ascii c <=? 57)%nat.

Definition is_ascii (c : ascii) : bool := (nat_of_ascii c <? 128)%nat.

Definition LF : ascii := ascii_of_nat 10.
Definition NUL : ascii := ascii_of_nat 0.

Fixpoint forallb_string (p : ascii -> bool) (s : string) : bool :=
  match s with
  | EmptyString => true
  | String c s' => p c && forallb_string p s'
  end.

(** [s] without its longest suffix of characters that satisfy [p], as
    [s.rstrip(chars)] returns it. *)
Fixpoint rstrip (p : ascii -> bool) (s : string) : string :=
  match s with
  | EmptyString => EmptyString
  | String c s' =>
      if forallb_string p s then EmptyString else String c (rstrip p s')
  end.

(** [s.endswith(suffix)] *)
Definition endswith (s suffix : string) : bool :=
  let n := String.length s in
  let m := String.length suffix in
  (m <=? n)%nat && (substring (n - m) m s =? suffix).

(** The last character of [s], if any. *)
Fixpoint last_char (s : string) : option ascii :=
  match s with
  | EmptyString => None
  | String c EmptyString => Some c
  | String _ s' => last_char s'
  end.

Definition dec (n : nat) : string := NilEmpty.string_of_uint (Nat.to_uint n).

Definition hex_digit (n : nat) : ascii :=
  if (n <? 10)%nat then ascii_of_nat (48 + n) else ascii_of_nat (87 + n).

(** Two lower-case hexadecimal digits, as in the escape [\xNN]. *)
Definition hex2 (c : ascii) : string :=
  let n := nat_of_ascii c in
  String (hex_digit (n / 16)) (String (hex_digit (n mod 16)) EmptyString).

(** The first run of characters outside ASCII: its first character, the
    position where it starts and its length. *)
Fixpoint non_ascii_run_length (s : string) : nat :=
  match s with
  | EmptyString => 0
  | String c s' => if is_ascii c then 0 else S (non_ascii_run_length s')
  end.

Fixpoint first_non_ascii (pos : nat) (s : string) : option (ascii * nat * nat) :=
  match s with
  | EmptyString => None
  | String c s' =>
      if is_ascii c then first_non_ascii (S pos) s'
      else Some (c, pos, S (non_ascii_run_length s'))
  end.

(** [s.encode('ascii')], as the conversion of text to byte strings does
    it. *)
Definition encode_ascii (s : string) : result string :=
  match first_non_ascii 0 s with
  | None => Return s
  | Some (c, start, len) =>
      Raise (UnicodeEncodeError
        (if (len =? 1)%nat then
           "'ascii' codec can't encode character '\x" ++ hex2 c
             ++ "' in position " ++ dec start
             ++ ": ordinal not in range(128)"
         else
           "'ascii' codec can't encode characters in position " ++ dec start
             ++ "-" ++ dec (start + len - 1)
             ++ ": ordinal not in range(128)"))
  end.

End Py.
Export Py.

Notation "x <- m ;; k" := (bind m (fun x => k))
  (at level 61, m at next level, right associativity).

(* ================================================================= *)
(** ** The two regular expressions *)

Module Re.

(** The longest prefix of decimal digits and what follows it. *)
Fixpoint span_digits (s : string) : string * string :=
  match s with
  | EmptyString => (EmptyString, EmptyString)
  | String c s' =>
      if is_digit c then
        let (ds, rest) := span_digits s' in (String c ds, rest)
      else (EmptyString, s)
  end.

(** [$] (no [MULTILINE] flag): the end of the string, or just before a
    line feed that is the last character of the string. *)
Definition at_dollar (rest : string) : bool :=
  match rest with
  | EmptyString => true
  | String c EmptyString => Ascii.eqb c LF
  | _ => false
  end.

(** [\d+$] tried at the start of [s]: the unconsumed rest on success.
    [\d+] is greedy; giving back digits cannot help, since [$] never holds
    in front of a digit. *)
Definition match_digits_dollar (s : string) : option string :=
  let (ds, rest) := span_digits s in
  match ds with
  | EmptyString => None
  | String _ _ => if at_dollar rest then Some rest else None
  end.

(** [re.sub(r'\d+$', '', s)]: the leftmost match is deleted.  What is left
    after a match is empty or a single line feed, where the pattern cannot
    match again. *)
Fixpoint sub_trailing_digits (s : string) : string :=
  match match_digits_dollar s with
  | Some rest => rest
  | None =>
      match s with
      | EmptyString => EmptyString
      | String c s' => String c (sub_trailing_digits s')
      end
  end.

(** A literal prefix of the pattern: the rest of [s] after [lit]. *)
Fixpoint literal (lit s : string) : option string :=
  match lit, s with
  | EmptyString, _ => Some s
  | String a lit', String b s' =>
      if Ascii.eqb a b then literal lit' s' else None
  | String _ _, EmptyString => None
  end.

(** [[0-9]] *)
Definition digit_class (s : string) : option string :=
  match s with
  | String c s' => if is_digit c then Some s' else None
  | EmptyString => None
  end.

Definition and_then {A B : Type} (o : option A) (k : A -> option B) : option B :=
  match o with
  | Some a => k a
  | None => None
  end.

(** [re.match(r'(song[0-9][0-9]_Imputed)(\.mat$)', s)]: group 1 on
    success. *)
Definition match_song_imputed (s : string) : option string :=
  and_then (literal "song" s) (fun s1 =>
  and_then (digit_class s1) (fun s2 =>
  and_then (digit_class s2) (fun s3 =>
  and_then (literal "_Imputed" s3) (fun s4 =>
  and_then (literal ".mat" s4) (fun s5 =>
  if at_dollar s5 then Some (substring 0 14 s) else None))))).

End Re.

(** The specification's wording of the key transform: the key with its
    maximal trailing run of decimal digits removed. *)
Definition strip_trailing_digits (s : string) : string := rstrip is_digit s.

(* ================================================================= *)
(** ** NumPy values *)

Module Numpy.

Inductive dtype : Type :=
| float64 | int64 | uint8 | bool_
| bytes_ (itemsize : nat)     (* 'S<itemsize>' *)
| str_ (itemsize : nat).      (* 'U<itemsize>' *)

(** [float64] elements are kept as their 64 bit patterns. *)
Inductive scalar : Type :=
| Float (bits : Z)
| Int (z : Z)
| Bool (b : bool)
| Bytes (b : string)
| Str (s : string).

(** An array of a dtype other than [object]: dtype, shape and the elements
    in row-major order.  A scalar is an array of shape [[]]. *)
Record ndarray : Type := mk_ndarray {
  nd_dtype : dtype;
  nd_shape : list nat;
  nd_data : list scalar
}.

Definition is_numeric (dt : dtype) : bool :=
  match dt with
  | float64 | int64 | uint8 => true
  | bool_ | bytes_ _ | str_ _ => false
  end.

(** An item of an array of dtype [object], as iteration over the array
    yields it: a wrapper around text values, or something else. *)
Inductive element : Type :=
| EList (l : list string)      (* a list of str *)
| EArray (l : list string)     (* a one-dimensional array holding str *)
| EStr (s : string)            (* a bare str *)
| EFloat (bits : Z).           (* a float *)

(** [item[0]] *)
Definition getitem0 (item : element) : result string :=
  match item with
  | EList (s :: _) | EArray (s :: _) => Return s
  | EList [] => Raise (IndexError "list index out of range")
  | EArray [] =>
      Raise (IndexError "index 0 is out of bounds for axis 0 with size 0")
  | EStr (String c _) => Return (String c EmptyString)
  | EStr EmptyString => Raise (IndexError "string index out of range")
  | EFloat _ => Raise (TypeError "'float' object is not subscriptable")
  end.

(** A value of dtype ['S'] reads back without its trailing NUL bytes. *)
Definition rstrip_nul (s : string) : string := rstrip (Ascii.eqb NUL) s.

(** The item size that holds every string of [l]; never 0. *)
Definition itemsize_for (l : list string) : nat :=
  Nat.max 1 (fold_right (fun s m => Nat.max (String.length s) m) 0 l).

(** [np.array(l, dtype='S')] for a list of str: each string is encoded
    with the ASCII codec, in order. *)
Definition array_S (l : list string) : result ndarray :=
  bs <- comprehension encode_ascii l ;;
  Return {| nd_dtype := bytes_ (itemsize_for l);
            nd_shape := [List.length l];
            nd_data := map (fun b => Bytes (rstrip_nul b)) bs |}.

(** [np.string_(s)] for a str: a byte-string scalar. *)
Definition string_ (s : string) : result ndarray :=
  b <- encode_ascii s ;;
  Return {| nd_dtype := bytes_ (Nat.max 1 (String.length (rstrip_nul b)));
            nd_shape := [];
            nd_data := [Bytes (rstrip_nul b)] |}.

End Numpy.
Export Numpy.

(* ================================================================= *)
(** ** The values of a loaded container and the HDF5 file *)

(** What a source container may hold under a key. *)
Inductive pyvalue : Type :=
| VObjectArray (items : list element)   (* ndarray of dtype object *)
| VArray (a : ndarray)                  (* ndarray of any other dtype *)
| VStr (s : string)                     (* str *)
| VBytes (b : string)                   (* bytes *)
| VList (l : list string)               (* list *)
| VNone.

(** [isinstance(value, np.ndarray)] *)
Definition is_ndarray (v : pyvalue) : bool :=
  match v with
  | VObjectArray _ | VArray _ => true
  | _ => false
  end.

(** [value.dtype.type is np.object_], for an ndarray *)
Definition has_object_dtype (v : pyvalue) : bool :=
  match v with
  | VObjectArray _ => true
  | _ => false
  end.

(** [isinstance(value, str)] *)
Definition is_str (v : pyvalue) : bool :=
  match v with
  | VStr _ => true
  | _ => false
  end.

(** The source container: the items of the dict, in iteration order. *)
Definition container : Type := list (string * pyvalue).

Module H5.

(** The datasets of a file, in creation order. *)
Definition file : Type := list (string * ndarray).

Definition keys (f : file) : list string := map fst f.

(** [name in f] *)
Definition contains (f : file) (name : string) : bool :=
  existsb (String.eqb name) (keys f).

(** The exception for a name that is taken (the wording of the message is
    the library's and changes with its version). *)
Definition name_already_exists : exn :=
  ValueError "Unable to create dataset (name already exists)".

(** The exception with which [f.create_dataset(name, data=data)] refuses to
    create the dataset, if it does: there is no HDF5 type for arrays of
    str; the name cannot be empty; the name cannot be taken. *)
Definition refusal (f : file) (name : string) (data : ndarray) : option exn :=
  match nd_dtype data with
  | str_ w =>
      Some (TypeError ("No conversion path for dtype: dtype('<U" ++ dec w ++ "')"))
  | _ =>
      if name =? "" then Some (TypeError "expected bytes, str found")
      else if contains f name then Some name_already_exists
      else None
  end.

(** [f.create_dataset(name, data=data)] *)
Definition create_dataset (f : file) (name : string) (data : ndarray)
  : result file :=
  match refusal f name data with
  | Some e => Raise e
  | None => Return (f ++ [(name, data)])
  end.


End H5.

(* ================================================================= *)
(** ** mat_to_hdf5.py: the entry transcoder *)

(** [_convert_strings_to_utf8(arr)] *)
Definition _convert_strings_to_utf8 (arr : list element) : result ndarray :=
  flat_list <- comprehension getitem0 arr ;;
  array_S flat_list.

Definition metadata_keys : list string :=
  ["__header__"; "__version__"; "__globals__"].

(** [key in ["__header__", "__version__", "__globals__"]] *)
Definition is_metadata_key (key : string) : bool :=
  existsb (String.eqb key) metadata_keys.

(** [key = re.sub(r'\d+$', '', key)] *)
Definition mapped_key (key : string) : string := Re.sub_trailing_digits key.

(** [print(f"Could not convert {key} to UTF-8 strings:", e)] *)
Definition could_not_convert (key : string) (e : exn) : string :=
  "Could not convert " ++ key ++ " to UTF-8 strings: " ++ exn_str e.

(** Where the loop of [convert_mat_to_hdf5] stands: the file so far, the
    lines printed, and the exception that left the loop, if one did. *)
Record outcome : Type := mk_outcome {
  dest : H5.file;
  printed : list string;
  raised : option exn
}.

(** One turn of the loop [for key, value in mat.items()], on the file [f]. *)
Definition convert_entry (f : H5.file) (entry : string * pyvalue) : outcome :=
  let (key, value) := entry in
  if is_metadata_key key then mk_outcome f [] None
  else
    let key := mapped_key key in
    match value with
    | VObjectArray arr =>
        (* an ndarray of dtype object: try ... except Exception *)
        match
          utf8_strings <- _convert_strings_to_utf8 arr ;;
          H5.create_dataset f key utf8_strings
        with
        | Return f' => mk_outcome f' [] None
        | Raise e => mk_outcome f [could_not_convert key e] None
        end
    | VArray a =>
        (* any other ndarray, outside any try *)
        match H5.create_dataset f key a with
        | Return f' => mk_outcome f' [] None
        | Raise e => mk_outcome f [] (Some e)
        end
    | VStr s =>
        (* a str: value = np.string_(value), outside any try *)
        match
          b <- string_ s ;;
          H5.create_dataset f key b
        with
        | Return f' => mk_outcome f' [] None
        | Raise e => mk_outcome f [] (Some e)
        end
    | VBytes _ | VList _ | VNone =>
        (* neither test holds: nothing is done *)
        mk_outcome f [] None
    end.

(** The loop: an exception that is not caught inside a turn ends it. *)
Fixpoint convert_entries (f : H5.file) (mat : container) : outcome :=
  match mat with
  | [] => mk_outcome f [] None
  | entry :: rest =>
      let o := convert_entry f entry in
      match raised o with
      | Some e => o
      | None =>
          let o' := convert_entries (dest o) rest in
          mk_outcome (dest o') (printed o ++ printed o') (raised o')
      end
  end.

(** [convert_mat_to_hdf5(output_name, mat)]: the file [output_name] is
    opened for writing, empty, and filled by the loop; [dest] is its content
    when the [with] block is left, normally or by an exception. *)
Definition convert_mat_to_hdf5 (output_name : string) (mat : container) : outcome :=
  convert_entries [] mat.

(* ================================================================= *)
(** ** mat_to_hdf5.py: source selector, orchestrator, entry point *)

Module Os.

(** What the program asks of the file system, and [scipy.io.loadmat] on
    a path of it. *)
Record filesystem : Type := {
  path_exists : string -> bool;          (* os.path.exists *)
  path_isfile : string -> bool;          (* os.path.isfile *)
  path_isdir : string -> bool;           (* os.path.isdir *)
  listdir : string -> list string;       (* os.listdir *)
  loadmat : string -> result container   (* scipy.io.loadmat *)
}.

Definition sep : ascii := "/"%char.
Definition extsep : ascii := "."%char.

(** [s.rfind(c)], [None] for -1 *)
Fixpoint rfind (c : ascii) (s : string) : option nat :=
  match s with
  | EmptyString => None
  | String a s' =>
      match rfind c s' with
      | Some i => Some (S i)
      | None => if Ascii.eqb a c then Some 0 else None
      end
  end.

(** [os.path.basename(p)] *)
Definition basename (p : string) : string :=
  match rfind sep p with
  | None => p
  | Some i => substring (S i) (String.length p - S i) p
  end.

(** [os.path.splitext(p)]: the extension starts at the last dot of the
    last component, leading dots of the component apart. *)
Definition splitext (p : string) : string * string :=
  match rfind extsep p with
  | None => (p, EmptyString)
  | Some dot =>
      let start := match rfind sep p with None => 0 | Some i => S i end in
      if (start <=? dot)%nat
         && negb (forallb_string (Ascii.eqb extsep) (substring start (dot - start) p))
      then (substring 0 dot p, substring dot (String.length p - dot) p)
      else (p, EmptyString)
  end.

(** [os.path.join(a, b)] *)
Definition join (a b : string) : string :=
  match b with
  | String c _ =>
      if Ascii.eqb c sep then b
      else if (a =? "") || endswith a "/" then a ++ b
      else a ++ "/" ++ b
  | EmptyString =>
      if (a =? "") || endswith a "/" then a else a ++ "/"
  end.

End Os.
Export Os.

(** [{"name": ..., "mat": ...}] *)
Record mat_file : Type := {
  name : string;
  mat : container
}.

(** The two failures of the source selector: the path does not exist, and
    no input is found there. *)
Definition file_or_path_does_not_exist : exn :=
  ValueError "File or path does not exist".

Definition no_valid_mat_files : exn :=
  ValueError "No valid .mat files found in the specified source.".

(** The loop [for file_name in os.listdir(source)] of [get_mat_files]. *)
Fixpoint scan_directory (fs : filesystem) (source : string)
    (names : list string) (files : list mat_file) : result (list mat_file) :=
  match names with
  | [] => Return files
  | file_name :: names' =>
      if endswith file_name "Imputed.mat" then
        let file_path := join source file_name in
        match Re.match_song_imputed file_name with
        | Some group1 =>
            mat_content <- loadmat fs file_path ;;
            scan_directory fs source names'
              (files ++ [{| name := group1; mat := mat_content |}])
        | None => scan_directory fs source names' files
        end
      else scan_directory fs source names' files
  end.

(** [get_mat_files(source)] *)
Definition get_mat_files (fs : filesystem) (source : string)
  : result (list mat_file) :=
  if negb (path_exists fs source) then Raise file_or_path_does_not_exist
  else
    files <-
      (if path_isfile fs source && endswith source ".mat" then
         m <- loadmat fs source ;;
         Return [{| name := fst (splitext (basename source)); mat := m |}]
       else if path_isdir fs source then
         scan_directory fs source (listdir fs source) []
       else Return []) ;;
    match files with
    | [] => Raise no_valid_mat_files
    | _ :: _ => Return files
    end.

(** What a run leaves behind: the directories made and the files written,
    the lines printed, and the exception that was not caught, if any. *)
Inductive effect : Type :=
| MakeDirs (path : string)
| WriteFile (path : string) (content : H5.file).

Record run : Type := mk_run {
  effects : list effect;
  stdout : list string;
  uncaught : option exn
}.

(** The loop [for mat_file in mat_files] of [mat_to_hdf5]. *)
Fixpoint convert_files (destination : string) (mat_files : list mat_file) : run :=
  match mat_files with
  | [] => mk_run [] [] None
  | mf :: rest =>
      let hdf5_name := (name mf ++ ".hdf5")%string in
      let hdf5_path := join destination hdf5_name in
      let o := convert_mat_to_hdf5 hdf5_path (mat mf) in
      match raised o with
      | Some e => mk_run [WriteFile hdf5_path (dest o)] (printed o) (Some e)
      | None =>
          let r := convert_files destination rest in
          mk_run (WriteFile hdf5_path (dest o) :: effects r)
                 (printed o ++ stdout r) (uncaught r)
      end
  end.

(** [mat_to_hdf5(mat_files, destination)] *)
Definition mat_to_hdf5 (fs : filesystem) (mat_files : list mat_file)
    (destination : string) : run :=
  let made :=
    if negb (path_exists fs destination) then [MakeDirs destination] else [] in
  let r := convert_files destination mat_files in
  mk_run (made ++ effects r) (stdout r) (uncaught r).

(** The parsed command line. *)
Record arguments : Type := {
  source : string;
  destination : string
}.

(** [except ValueError as e: print(f"Error: {e}")] *)
Definition error_line (e : exn) : string := "Error: " ++ exn_str e.

(** [main()], after [parse_arguments()]. *)
Definition main (fs : filesystem) (args : arguments) : run :=
  match get_mat_files fs (source args) with
  | Raise e =>
      if is_ValueError e then mk_run [] [error_line e] None
      else mk_run [] [] (Some e)
  | Return mat_files =>
      let r := mat_to_hdf5 fs mat_files (destination args) in
      match uncaught r with
      | None =>
          mk_run (effects r)
                 (stdout r ++ ["Conversion completed successfully."]) None
      | Some e =>
          if is_ValueError e then
            mk_run (effects r) (stdout r ++ [error_line e]) None
          else r
      end
  end.

(* ================================================================= *)
(** ** Vocabulary of the specification *)

(** The dataset that a turn of the loop hands to [create_dataset] for
    [value], when it gets that far: the flattened strings, the array
    itself, the encoded text. *)
Definition written_value (value : pyvalue) : option ndarray :=
  match value with
  | VObjectArray arr =>
      match _convert_strings_to_utf8 arr with
      | Return utf8_strings => Some utf8_strings
      | Raise _ => None
      end
  | VArray a => Some a
  | VStr s =>
      match string_ s with
      | Return b => Some b
      | Raise _ => None
      end
  | VBytes _ | VList _ | VNone => None
  end.

(** The text that [item] wraps, when [item] is a wrapper of length 1
    around a text value. *)
Definition wrapped_text (item : element) : option string :=
  match item with
  | EList [s] | EArray [s] => Some s
  | _ => None
  end.

(** The value is an array of numbers. *)
Definition is_numeric_array (value : pyvalue) : bool :=
  match value with
  | VArray a => is_numeric (nd_dtype a)
  | _ => false
  end.

(** The name of a file that the scan of a directory selects. *)
Definition is_input_name (file_name : string) : bool :=
  endswith file_name "Imputed.mat"
  && match Re.match_song_imputed file_name with
     | Some _ => true
     | None => false
     end.

(** No input at [source]: it is not a file whose name ends in ".mat", and
    if it is a directory, none of the names in it is selected. *)
Definition no_input (fs : filesystem) (source : string) : Prop :=
  path_isfile fs source && endswith source ".mat" = false
  /\ (path_isdir fs source = true ->
      forall file_name,
        In file_name (listdir fs source) -> is_input_name file_name = false).



(** [s[:1]] *)
Definition first_character (s : string) : string :=
  match s with
  | EmptyString => EmptyString
  | String c _ => String c EmptyString
  end.

(** The entry of the selector for the name [file_name] of a directory,
    loaded as [m]. *)
Definition selected_file (m : string -> container) (file_name : string) : mat_file :=
  {| name := substring 0 14 file_name; mat := m file_name |}.

(** The file that [mat_to_hdf5] writes for [mf] in [destination]. *)
Definition written_file (destination : string) (mf : mat_file) : effect :=
  let hdf5_path := join destination (name mf ++ ".hdf5") in
  WriteFile hdf5_path (dest (convert_mat_to_hdf5 hdf5_path (mat mf))).

(** The lines that the conversion of [mf] into [destination] prints. *)
Definition file_lines (destination : string) (mf : mat_file) : list string :=
  printed (convert_mat_to_hdf5 (join destination (name mf ++ ".hdf5")) (mat mf)).

(** The exception that leaves the conversion of [mf], if any. *)
Definition file_raised (destination : string) (mf : mat_file) : option exn :=
  raised (convert_mat_to_hdf5 (join destination (name mf ++ ".hdf5")) (mat mf)).

(** [os.makedirs(destination)], when [destination] does not exist. *)
Definition made_directory (fs : filesystem) (destination : string) : list effect :=
  if path_exists fs destination then [] else [MakeDirs destination].

(* ================================================================= *)
(** ** Sample data *)

Module Sample.

(** 1.0, 2.0, 3.0 and 4.0 as IEEE 754 doubles. *)
Definition f1 : Z := 0x3FF0000000000000.
Definition f2 : Z := 0x4000000000000000.
Definition f3 : Z := 0x4008000000000000.
Definition f4 : Z := 0x4010000000000000.

(** [[[1.0, 2.0], [3.0, 4.0]]] *)
Definition song : ndarray :=
  {| nd_dtype := float64; nd_shape := [2; 2];
     nd_data := [Float f1; Float f2; Float f3; Float f4] |}.

(** [[[5.0, 6.0]]], with 5.0 and 6.0 as IEEE 754 doubles. *)
Definition song_other : ndarray :=
  {| nd_dtype := float64; nd_shape := [1; 2];
     nd_data := [Float 0x4014000000000000; Float 0x4018000000000000] |}.

(** [["alpha"]], an array of str. *)
Definition song_title : ndarray :=
  {| nd_dtype := str_ 5; nd_shape := [1]; nd_data := [Str "alpha"] |}.

(** [[["alpha"], ["beta"]]] *)
Definition song_names : list element := [EList ["alpha"]; EList ["beta"]].

(** [[b"alpha", b"beta"]] *)
Definition song_names_bytes : ndarray :=
  {| nd_dtype := bytes_ 5; nd_shape := [2];
     nd_data := [Bytes "alpha"; Bytes "beta"] |}.

(** [{"__header__": header, "song01": song, "song01Name1": song_names}] *)
Definition scenario (header : pyvalue) : container :=
  [("__header__", header); ("song01", VArray song);
   ("song01Name1", VObjectArray song_names)].

(** A header as [loadmat] returns it. *)
Definition header : pyvalue := VBytes "MATLAB 5.0 MAT-file".

(** The text "é": one character, U+00E9. *)
Definition e_acute : string := String (ascii_of_nat 233) "".

(** The key "a1" followed by a line feed. *)
Definition a1_LF : string := String "a" (String "1" (String LF "")).

(** [[b"ab", b"cd"]], an array of byte strings. *)
Definition labels : ndarray :=
  {| nd_dtype := bytes_ 2; nd_shape := [2];
     nd_data := [Bytes "ab"; Bytes "cd"] |}.

(** [[["alpha", "extra"], ["beta"]]]: the first wrapper has length 2. *)
Definition long_wrapper_names : list element :=
  [EList ["alpha"; "extra"]; EList ["beta"]].

(** [[["alpha"], []]]: the second wrapper is empty. *)
Definition empty_wrapper_names : list element := [EList ["alpha"]; EList []].

(** A directory "data" with two inputs and a text file, and a directory
    "other" without input; every file loads as the scenario. *)
Definition fs : filesystem :=
  {| path_exists := fun p => (p =? "data") || (p =? "other");
     path_isfile := fun _ => false;
     path_isdir := fun p => (p =? "data") || (p =? "other");
     listdir := fun p =>
       if p =? "data"
       then ["song01_Imputed.mat"; "song02_Imputed.mat"; "notes.txt"]
       else ["notes.txt"; "song1_Imputed.mat"];
     loadmat := fun _ => Return (scenario header) |}.

(** The directory "data" with two inputs, the second of which is not a
    MAT-file. *)
Definition fs_unreadable : filesystem :=
  {| path_exists := fun p => p =? "data";
     path_isfile := fun _ => false;
     path_isdir := fun p => p =? "data";
     listdir := fun _ => ["song01_Imputed.mat"; "song02_Imputed.mat"];
     loadmat := fun p =>
       if p =? "data/song02_Imputed.mat"
       then Raise (TypeError "Expecting miMATRIX type here, got 0")
       else Return (scenario header) |}.

(** The single file "data/rec.mat". *)
Definition fs_file : filesystem :=
  {| path_exists := fun p => p =? "data/rec.mat";
     path_isfile := fun p => p =? "data/rec.mat";
     path_isdir := fun _ => false;
     listdir := fun _ => [];
     loadmat := fun _ => Return (scenario header) |}.

(** The directory "data" with two inputs, the second of which holds a
    title that cannot be encoded. *)
Definition fs_untitled : filesystem :=
  {| path_exists := fun p => p =? "data";
     path_isfile := fun _ => false;
     path_isdir := fun p => p =? "data";
     listdir := fun _ => ["song01_Imputed.mat"; "song02_Imputed.mat"];
     loadmat := fun p =>
       if p =? "data/song02_Imputed.mat"
       then Return [("song01", VArray song); ("title", VStr e_acute)]
       else Return (scenario header) |}.

(** [{"song01": song, "title": "é"}] *)
Definition untitled : container :=
  [("song01", VArray song); ("title", VStr e_acute)].

End Sample.

(* ================================================================= *)
(** ** Text lemmas *)

Section Text.

Open Scope string_scope.

Lemma append_empty_r (s : string) : s ++ "" = s.
Proof. induction s as [|c s IH]; simpl; [reflexivity | now rewrite IH]. Qed.

Lemma last_char_cons (c : ascii) (s : string) :
  s <> "" -> last_char (String c s) = last_char s.
Proof. destruct s; [congruence | reflexivity]. Qed.

Lemma last_char_None (s : string) : last_char s = None -> s = "".
Proof.
  induction s as [|c s IH]; [reflexivity|].
  destruct s as [|c' s]; [discriminate|].
  rewrite last_char_cons by discriminate. intros H. now apply IH in H.
Qed.

Lemma last_char_app_single (s : string) (c : ascii) :
  last_char (s ++ String c "") = Some c.
Proof.
  induction s as [|a s IH]; [reflexivity|].
  change (String a s ++ String c "") with (String a (s ++ String c "")).
  rewrite last_char_cons; [exact IH | now destruct s].
Qed.

Lemma last_char_all (p : ascii -> bool) (s : string) (c : ascii) :
  forallb_string p s = true -> last_char s = Some c -> p c = true.
Proof.
  induction s as [|a s IH]; [discriminate|].
  simpl forallb_string. intros Hall%andb_prop Hlast. destruct Hall as [Ha Hs].
  destruct s as [|b s].
  - simpl in Hlast. now injection Hlast as <-.
  - rewrite last_char_cons in Hlast by discriminate. now apply IH.
Qed.

Lemma forallb_string_app (p : ascii -> bool) (s t : string) :
  forallb_string p (s ++ t) = forallb_string p s && forallb_string p t.
Proof.
  induction s as [|a s IH]; [reflexivity|].
  simpl. now rewrite IH, andb_assoc.
Qed.

Lemma rstrip_spec (p : ascii -> bool) (s : string) :
  exists suffix,
    s = rstrip p s ++ suffix
    /\ forallb_string p suffix = true
    /\ forall c, last_char (rstrip p s) = Some c -> p c = false.
Proof.
  induction s as [|c s (ds & Heq & Hds & Hlast)].
  - exists "". repeat split; discriminate.
  - cbn [rstrip].
    destruct (forallb_string p (String c s)) eqn:Hall.
    + exists (String c s). repeat split; [exact Hall | discriminate].
    + exists ds. split; [simpl; now f_equal | split; [exact Hds|]].
      intros c0. destruct (rstrip p s) as [|c' s'] eqn:Hstrip.
      * simpl. intros [= <-]. simpl in Heq. subst ds.
        simpl in Hall. rewrite Hds, andb_true_r in Hall. exact Hall.
      * rewrite last_char_cons by discriminate. apply Hlast.
Qed.

Lemma rstrip_unique (p : ascii -> bool) (prefix suffix : string) :
  forallb_string p suffix = true ->
  (forall c, last_char prefix = Some c -> p c = false) ->
  rstrip p (prefix ++ suffix) = prefix.
Proof.
  intros Hds. induction prefix as [|c s IH]; intros Hlast.
  - simpl. destruct suffix as [|d ds]; [reflexivity|].
    cbn [rstrip]. now rewrite Hds.
  - change (String c s ++ suffix) with (String c (s ++ suffix)).
    cbn [rstrip].
    assert (Hall : forallb_string p (String c (s ++ suffix)) = false).
    { change (String c (s ++ suffix)) with (String c s ++ suffix).
      rewrite forallb_string_app, Hds, andb_true_r.
      destruct (forallb_string p (String c s)) eqn:H; [|reflexivity].
      destruct (last_char (String c s)) as [l|] eqn:Hl.
      - rewrite <- (Hlast l eq_refl). symmetry. eapply last_char_all; eassumption.
      - now apply last_char_None in Hl. }
    rewrite Hall. f_equal. apply IH.
    intros c0 Hc0. apply Hlast.
    destruct s as [|c' s]; [discriminate|].
    now rewrite last_char_cons by discriminate.
Qed.

Lemma rstrip_id (p : ascii -> bool) (s : string) :
  (forall c, last_char s = Some c -> p c = false) -> rstrip p s = s.
Proof.
  intros H. rewrite <- (append_empty_r s) at 1. now apply rstrip_unique.
Qed.

Lemma rstrip_all (p : ascii -> bool) (s : string) :
  forallb_string p s = true -> rstrip p s = "".
Proof.
  intros H. change s with ("" ++ s).
  apply rstrip_unique; [exact H | discriminate].
Qed.

Lemma is_digit_LF : is_digit LF = false.
Proof. reflexivity. Qed.

End Text.

(* ================================================================= *)
(** ** The key transform *)

Section KeyTransform.

Open Scope string_scope.

Lemma span_digits_sound (s ds rest : string) :
  Re.span_digits s = (ds, rest) ->
  s = ds ++ rest /\ forallb_string is_digit ds = true.
Proof.
  revert ds rest. induction s as [|c s IH]; intros ds rest; simpl.
  - intros [= <- <-]. now split.
  - destruct (is_digit c) eqn:Hc.
    + destruct (Re.span_digits s) as [ds' rest'] eqn:Hs.
      intros [= <- <-]. destruct (IH _ _ eq_refl) as [-> Hds].
      simpl. now rewrite Hc, Hds.
    + intros [= <- <-]. now split.
Qed.

Lemma span_digits_all (s : string) :
  forallb_string is_digit s = true -> Re.span_digits s = (s, "").
Proof.
  induction s as [|c s IH]; [reflexivity|].
  simpl. intros [Hc Hs]%andb_prop. now rewrite Hc, (IH Hs).
Qed.

(** A match of [\d+$] at the start of [s] either takes all of [s], or
    stops in front of a final line feed. *)
Lemma match_digits_dollar_Some (s rest : string) :
  Re.match_digits_dollar s = Some rest ->
  (rest = "" /\ forallb_string is_digit s = true)
  \/ (rest = String LF "" /\ last_char s = Some LF).
Proof.
  unfold Re.match_digits_dollar.
  destruct (Re.span_digits s) as [ds r] eqn:Hs.
  destruct (span_digits_sound _ _ _ Hs) as [-> Hds].
  destruct ds as [|d ds]; [discriminate|].
  destruct r as [|c [|c' r]]; simpl Re.at_dollar.
  - intros [= <-]. left. now rewrite append_empty_r.
  - destruct (Ascii.eqb_spec c LF) as [->|]; [|discriminate].
    intros [= <-]. right. split; [reflexivity | apply last_char_app_single].
  - discriminate.
Qed.

Lemma match_digits_dollar_all (c : ascii) (s : string) :
  forallb_string is_digit (String c s) = true ->
  Re.match_digits_dollar (String c s) = Some "".
Proof.
  intros H. unfold Re.match_digits_dollar. now rewrite (span_digits_all _ H).
Qed.

(** On a key that does not end in a line feed, the substitution removes
    the maximal trailing run of digits and nothing else. *)
Lemma sub_trailing_digits_strip (s : string) :
  last_char s <> Some LF ->
  Re.sub_trailing_digits s = strip_trailing_digits s.
Proof.
  induction s as [|c s IH]; intros Hlast; [reflexivity|].
  unfold strip_trailing_digits in *. cbn [Re.sub_trailing_digits rstrip].
  destruct (forallb_string is_digit (String c s)) eqn:Hall.
  - now rewrite (match_digits_dollar_all _ _ Hall).
  - destruct (Re.match_digits_dollar (String c s)) as [rest|] eqn:Hm.
    + apply match_digits_dollar_Some in Hm as [[_ H]|[_ H]]; congruence.
    + f_equal. destruct s as [|c' s]; [reflexivity|].
      apply IH. now rewrite last_char_cons in Hlast by discriminate.
Qed.

(** What [strip_trailing_digits] returns: the key is the result followed
    by digits only, and the result does not end in a digit. *)
Lemma strip_trailing_digits_spec (s : string) :
  exists ds,
    s = strip_trailing_digits s ++ ds
    /\ forallb_string is_digit ds = true
    /\ forall c, last_char (strip_trailing_digits s) = Some c -> is_digit c = false.
Proof. apply rstrip_spec. Qed.

(** The run removed is the maximal one: any split of the key into a
    prefix that does not end in a digit and a run of digits is the split
    that [strip_trailing_digits] makes. *)
Lemma strip_trailing_digits_unique (p ds : string) :
  forallb_string is_digit ds = true ->
  (forall c, last_char p = Some c -> is_digit c = false) ->
  strip_trailing_digits (p ++ ds) = p.
Proof. apply rstrip_unique. Qed.

(** A key without trailing digits is left as it is. *)
Lemma strip_trailing_digits_id (s : string) :
  (forall c, last_char s = Some c -> is_digit c = false) ->
  strip_trailing_digits s = s.
Proof. apply rstrip_id. Qed.

(** A key made of digits only maps to the empty string. *)
Lemma strip_trailing_digits_all (s : string) :
  forallb_string is_digit s = true -> strip_trailing_digits s = "".
Proof. apply rstrip_all. Qed.

(** The metadata names do not end in digits, so a key that strips to one
    of them without being one ends in a digit. *)
Lemma strips_to_metadata_no_LF (key : string) :
  is_metadata_key key = false ->
  is_metadata_key (strip_trailing_digits key) = true ->
  last_char key <> Some LF.
Proof.
  intros Hk Hs HLF.
  destruct (strip_trailing_digits_spec key) as (ds & Heq & Hds & _).
  destruct ds as [|d ds].
  - rewrite append_empty_r in Heq. congruence.
  - assert (Hd : is_digit LF = true).
    { apply (last_char_all is_digit (String d ds)); [exact Hds|].
      rewrite Heq in HLF. revert HLF.
      generalize (strip_trailing_digits key) as p.
      induction p as [|a p IH]; [trivial|].
      change (String a p ++ String d ds) with (String a (p ++ String d ds)).
      rewrite last_char_cons by (destruct p; discriminate). exact IH. }
    discriminate.
Qed.

End KeyTransform.

(* ================================================================= *)
(** ** The loop of the transcoder *)

Section Loop.

Implicit Types (f : H5.file) (mat : container) (key : string) (value : pyvalue).

Lemma convert_entry_metadata f key value :
  is_metadata_key key = true ->
  convert_entry f (key, value) = mk_outcome f [] None.
Proof. intros H. unfold convert_entry. now rewrite H. Qed.

Lemma contains_In f (name : string) :
  H5.contains f name = true <-> In name (H5.keys f).
Proof.
  unfold H5.contains. rewrite existsb_exists. split.
  - intros (x & Hin & Hx). now apply String.eqb_eq in Hx as ->.
  - intros Hin. exists name. split; [exact Hin | apply String.eqb_refl].
Qed.

(** [create_dataset] accepts a name that is not empty and not taken, for
    data that is not an array of str. *)
Lemma refusal_None f (name : string) (d : ndarray) :
  name <> ""%string ->
  (forall w, nd_dtype d <> str_ w) ->
  ~ In name (H5.keys f) ->
  H5.refusal f name d = None.
Proof.
  intros Hname Hdtype Hfresh. unfold H5.refusal.
  assert (Hrest : (if (name =? "")%string
                   then Some (TypeError "expected bytes, str found")
                   else if H5.contains f name then Some H5.name_already_exists
                        else None) = None).
  { destruct (String.eqb_spec name "") as [->|_]; [contradiction|].
    destruct (H5.contains f name) eqn:Hc; [|reflexivity].
    now apply contains_In in Hc. }
  destruct (nd_dtype d) eqn:Hd; try exact Hrest. now destruct (Hdtype itemsize).
Qed.

Lemma refusal_None_inv f (name : string) (d : ndarray) :
  H5.refusal f name d = None ->
  name <> ""%string /\ (forall w, nd_dtype d <> str_ w) /\ ~ In name (H5.keys f).
Proof.
  unfold H5.refusal. intros H.
  assert (Hrest : (if (name =? "")%string
                   then Some (TypeError "expected bytes, str found")
                   else if H5.contains f name then Some H5.name_already_exists
                        else None) = None
                  /\ forall w, nd_dtype d <> str_ w).
  { destruct (nd_dtype d); (split; [exact H | discriminate]) || discriminate. }
  destruct Hrest as [Hrest Hdtype].
  destruct (String.eqb_spec name "") as [->|Hname]; [discriminate|].
  destruct (H5.contains f name) eqn:Hc; [discriminate|].
  repeat split; [exact Hname | exact Hdtype|].
  intros Hin. apply contains_In in Hin. congruence.
Qed.

Lemma create_dataset_accepted f (name : string) (d : ndarray) :
  H5.refusal f name d = None ->
  H5.create_dataset f name d = Return (f ++ [(name, d)]).
Proof. intros H. unfold H5.create_dataset. now rewrite H. Qed.

Lemma create_dataset_refused f (name : string) (d : ndarray) (e : exn) :
  H5.refusal f name d = Some e ->
  H5.create_dataset f name d = Raise e.
Proof. intros H. unfold H5.create_dataset. now rewrite H. Qed.

Lemma convert_entry_written f key value d :
  is_metadata_key key = false ->
  written_value value = Some d ->
  H5.refusal f (mapped_key key) d = None ->
  convert_entry f (key, value)
  = mk_outcome (f ++ [(mapped_key key, d)]) [] None.
Proof.
  intros Hk Hw Hacc. unfold convert_entry. rewrite Hk.
  destruct value as [arr|a|s|b|l|]; simpl in Hw; try discriminate.
  - destruct (_convert_strings_to_utf8 arr); [injection Hw as -> | discriminate].
    simpl. now rewrite (create_dataset_accepted _ _ _ Hacc).
  - injection Hw as ->. now rewrite (create_dataset_accepted _ _ _ Hacc).
  - destruct (string_ s); [injection Hw as -> | discriminate].
    simpl. now rewrite (create_dataset_accepted _ _ _ Hacc).
Qed.

(** A turn adds at most one dataset, the one of an entry that is not
    metadata, under its mapped key and accepted by [create_dataset], and
    never removes one. *)
Lemma convert_entry_added f key value :
  dest (convert_entry f (key, value)) = f
  \/ (is_metadata_key key = false
      /\ exists d,
           written_value value = Some d
           /\ H5.refusal f (mapped_key key) d = None
           /\ dest (convert_entry f (key, value)) = f ++ [(mapped_key key, d)]).
Proof.
  unfold convert_entry. destruct (is_metadata_key key); [now left|].
  destruct value as [arr|a|s|b|l|]; try (now left); simpl.
  - destruct (_convert_strings_to_utf8 arr) as [d|e]; simpl; [|now left].
    unfold H5.create_dataset.
    destruct (H5.refusal f (mapped_key key) d) eqn:Hr; [now left|].
    right. split; [reflexivity|]. now exists d.
  - unfold H5.create_dataset.
    destruct (H5.refusal f (mapped_key key) a) eqn:Hr; [now left|].
    right. split; [reflexivity|]. now exists a.
  - destruct (string_ s) as [d|e]; simpl; [|now left].
    unfold H5.create_dataset.
    destruct (H5.refusal f (mapped_key key) d) eqn:Hr; [now left|].
    right. split; [reflexivity|]. now exists d.
Qed.

Lemma convert_entry_dest f key value :
  dest (convert_entry f (key, value)) = f
  \/ (is_metadata_key key = false
      /\ exists d, dest (convert_entry f (key, value)) = f ++ [(mapped_key key, d)]).
Proof.
  destruct (convert_entry_added f key value) as [H|(Hk & d & _ & _ & H)];
    [now left | right]. split; [exact Hk | now exists d].
Qed.

Lemma convert_entries_cons f entry mat :
  raised (convert_entry f entry) = None ->
  convert_entries f (entry :: mat)
  = mk_outcome (dest (convert_entries (dest (convert_entry f entry)) mat))
      (printed (convert_entry f entry)
         ++ printed (convert_entries (dest (convert_entry f entry)) mat))
      (raised (convert_entries (dest (convert_entry f entry)) mat)).
Proof. intros H. simpl. now rewrite H. Qed.

Lemma convert_entries_cons_raise f entry mat e :
  raised (convert_entry f entry) = Some e ->
  convert_entries f (entry :: mat) = convert_entry f entry.
Proof. intros H. simpl. now rewrite H. Qed.

(** The loop over [before ++ after] is the loop over [before], followed,
    unless an exception left it, by the loop over [after]. *)
Lemma convert_entries_app f before after :
  convert_entries f (before ++ after)
  = match raised (convert_entries f before) with
    | Some _ => convert_entries f before
    | None =>
        let o := convert_entries f before in
        let o' := convert_entries (dest o) after in
        mk_outcome (dest o') (printed o ++ printed o') (raised o')
    end.
Proof.
  revert f. induction before as [|entry before IH]; intros f.
  - simpl. now destruct (convert_entries f after).
  - simpl. destruct (raised (convert_entry f entry)) eqn:He.
    + now rewrite He.
    + rewrite IH. simpl.
      destruct (raised (convert_entries (dest (convert_entry f entry)) before))
        eqn:Hb; simpl; [now rewrite Hb | now rewrite app_assoc].
Qed.

(** Every dataset of the file stays in it, and every dataset added comes
    from an entry that is not metadata, under its mapped key. *)
Lemma convert_entries_dest f mat :
  exists added,
    dest (convert_entries f mat) = f ++ added
    /\ forall key', In key' (H5.keys added) ->
         exists key value,
           In (key, value) mat /\ is_metadata_key key = false
           /\ key' = mapped_key key.
Proof.
  revert f. induction mat as [|[key value] mat IH]; intros f.
  - exists []. split; [simpl; now rewrite app_nil_r | intros ? []].
  - assert (Hmono : forall added0,
      dest (convert_entry f (key, value)) = f ++ added0 ->
      (forall key', In key' (H5.keys added0) ->
         is_metadata_key key = false /\ key' = mapped_key key) ->
      exists added,
        dest (convert_entries f ((key, value) :: mat)) = f ++ added
        /\ forall key', In key' (H5.keys added) ->
             exists key0 value0,
               In (key0, value0) ((key, value) :: mat)
               /\ is_metadata_key key0 = false /\ key' = mapped_key key0).
    { intros added0 Hd Hadded0.
      destruct (raised (convert_entry f (key, value))) as [e|] eqn:Hr.
      - rewrite (convert_entries_cons_raise _ _ _ _ Hr). exists added0.
        split; [exact Hd|]. intros key' Hin.
        destruct (Hadded0 _ Hin) as [? ->].
        exists key, value. repeat split; [now left | assumption].
      - rewrite (convert_entries_cons _ _ _ Hr). cbn [dest].
        destruct (IH (dest (convert_entry f (key, value)))) as (added & -> & Hadded).
        exists (added0 ++ added). rewrite Hd, app_assoc. split; [reflexivity|].
        intros key'. unfold H5.keys. rewrite map_app, in_app_iff.
        intros [Hin|Hin].
        + destruct (Hadded0 _ Hin) as [? ->].
          exists key, value. repeat split; [now left | assumption].
        + destruct (Hadded _ Hin) as (key0 & value0 & ? & ? & ?).
          exists key0, value0. repeat split; [now right | assumption..]. }
    destruct (convert_entry_dest f key value) as [Hd|[Hk [d Hd]]].
    + apply (Hmono []); [now rewrite app_nil_r | intros ? []].
    + apply (Hmono [(mapped_key key, d)]); [exact Hd|].
      intros key' [<-|[]]. now split.
Qed.

(** A dataset written by the first turn is in the file when the loop is
    left, however it is left. *)
Lemma convert_entries_keeps f key value d mat :
  is_metadata_key key = false ->
  written_value value = Some d ->
  H5.refusal f (mapped_key key) d = None ->
  In (mapped_key key, d) (dest (convert_entries f ((key, value) :: mat))).
Proof.
  intros Hk Hw Hacc.
  rewrite convert_entries_cons; rewrite (convert_entry_written _ _ _ _ Hk Hw Hacc);
    [|reflexivity].
  cbn [dest].
  destruct (convert_entries_dest (f ++ [(mapped_key key, d)]) mat)
    as (added & -> & _).
  rewrite !in_app_iff. left. right. now left.
Qed.

(** The names of the datasets that the loop adds are not names of the file
    it started from, and are all different. *)
Lemma convert_entries_fresh f mat :
  exists added,
    dest (convert_entries f mat) = f ++ added
    /\ NoDup (H5.keys added)
    /\ forall name, In name (H5.keys added) ->
         name <> ""%string /\ ~ In name (H5.keys f).
Proof.
  revert f. induction mat as [|[key value] mat IH]; intros f.
  - exists []. simpl. rewrite app_nil_r. repeat split; [constructor | | ]; contradiction.
  - destruct (convert_entry_added f key value) as [Hd|(Hk & d & Hw & Hacc & Hd)].
    + destruct (raised (convert_entry f (key, value))) as [e|] eqn:Hr.
      * rewrite (convert_entries_cons_raise _ _ _ _ Hr), Hd. exists [].
        simpl. rewrite app_nil_r. repeat split; [constructor | | ]; contradiction.
      * rewrite (convert_entries_cons _ _ _ Hr), Hd. cbn [dest]. apply IH.
    + destruct (refusal_None_inv _ _ _ Hacc) as (Hname & _ & Hfresh).
      destruct (raised (convert_entry f (key, value))) as [e|] eqn:Hr.
      * rewrite (convert_entries_cons_raise _ _ _ _ Hr), Hd.
        exists [(mapped_key key, d)]. split; [reflexivity|]. split.
        -- constructor; [intros [] | constructor].
        -- intros name [<-|[]]. now split.
      * rewrite (convert_entries_cons _ _ _ Hr), Hd. cbn [dest].
        destruct (IH (f ++ [(mapped_key key, d)])) as (added & -> & Hnodup & Hadded).
        exists ((mapped_key key, d) :: added). rewrite <- app_assoc.
        split; [reflexivity|]. split.
        -- cbn [H5.keys map fst]. constructor; [|exact Hnodup].
           intros Hin. destruct (Hadded _ Hin) as [_ Hnot]. apply Hnot.
           unfold H5.keys. rewrite map_app, in_app_iff. right. now left.
        -- intros name [<-|Hin]; [now split|].
           destruct (Hadded _ Hin) as [Hne Hnot]. split; [exact Hne|].
           intros Hf. apply Hnot. unfold H5.keys. rewrite map_app, in_app_iff.
           now left.
Qed.

End Loop.

(* ================================================================= *)
(** ** Keys of the destination *)

(** On a key that does not end in a line feed the mapped key is the key
    without its maximal trailing run of digits: unchanged when there is no
    such run, empty when the key is made of digits only. *)
Lemma mapped_key_strip (key : string) :
  last_char key <> Some LF ->
  mapped_key key = strip_trailing_digits key.
Proof. apply sub_trailing_digits_strip. Qed.

Lemma mapped_key_no_trailing_digit (key : string) :
  last_char key <> Some LF ->
  (forall c, last_char key = Some c -> is_digit c = false) ->
  mapped_key key = key.
Proof.
  intros HLF H. rewrite (mapped_key_strip _ HLF). now apply strip_trailing_digits_id.
Qed.

Lemma mapped_key_all_digits (key : string) :
  forallb_string is_digit key = true -> mapped_key key = ""%string.
Proof.
  intros H. rewrite mapped_key_strip; [now apply strip_trailing_digits_all|].
  intros HLF. pose proof (last_char_all _ _ _ H HLF) as Hd.
  rewrite is_digit_LF in Hd. discriminate.
Qed.

(** C6, at the key "a1" followed by a line feed: the key is not a metadata
    key and has no trailing digit, so that removing its trailing run of
    digits leaves it as it is; the transcoder maps it to "a" followed by a
    line feed, because [$] also matches in front of a final line feed. *)
Theorem mapped_key_before_final_line_feed :
  is_metadata_key Sample.a1_LF = false
  /\ strip_trailing_digits Sample.a1_LF = Sample.a1_LF
  /\ mapped_key Sample.a1_LF = String "a" (String LF "")
  /\ mapped_key Sample.a1_LF <> strip_trailing_digits Sample.a1_LF.
Proof. repeat split. vm_compute. discriminate. Qed.

(** C1 fails as stated: the source container [{"__header__1": song}] gives
    the destination key "__header__", a reserved metadata name. *)
Lemma metadata_name_in_destination :
  ~ (forall key',
       In key' (H5.keys (dest (convert_mat_to_hdf5 "out.hdf5"
                                 [("__header__1"%string, VArray Sample.song)]))) ->
       (exists key,
          In key (map fst [("__header__1"%string, VArray Sample.song)])
          /\ key' = strip_trailing_digits key)
       /\ is_metadata_key key' = false).
Proof.
  intros H. destruct (H "__header__"%string) as [_ Hmeta].
  - now left.
  - discriminate Hmeta.
Qed.

(** C1, amended: for every source container whose keys do not end in a
    line feed, every key of the destination is some source key that is not
    a metadata key, with its trailing run of decimal digits removed.  (An
    entry under a metadata key is never written; a metadata name can still
    be the stripped form of a key such as "__header__1".) *)
Theorem destination_keys_from_source (output_name : string) (mat : container) :
  (forall key value, In (key, value) mat -> last_char key <> Some LF) ->
  forall key',
    In key' (H5.keys (dest (convert_mat_to_hdf5 output_name mat))) ->
    exists key value,
      In (key, value) mat
      /\ is_metadata_key key = false
      /\ key' = strip_trailing_digits key.
Proof.
  intros HLF key' Hin. unfold convert_mat_to_hdf5 in Hin.
  destruct (convert_entries_dest [] mat) as (added & Hd & Hadded).
  rewrite Hd in Hin. destruct (Hadded _ Hin) as (key & value & Hmat & Hk & ->).
  exists key, value. repeat split; [assumption..|].
  apply mapped_key_strip. now apply (HLF key value).
Qed.

Lemma destination_keys_from_source_witness :
  exists key value,
    In (key, value) (Sample.scenario Sample.header)
    /\ is_metadata_key key = false
    /\ "song01Name"%string = strip_trailing_digits key.
Proof.
  apply (destination_keys_from_source "song01_Imputed.hdf5" (Sample.scenario Sample.header)).
  - intros key value [H|[H|[H|[]]]]; injection H as <- _; vm_compute; discriminate.
  - vm_compute. right. left. reflexivity.
Defined.

(* ================================================================= *)
(** ** The scenario of the specification *)

(** C2 fails as stated: the destination of the scenario is not
    [{"song": ..., "songName": ...}]. *)
Lemma scenario_has_no_key_songName :
  dest (convert_mat_to_hdf5 "song01_Imputed.hdf5" (Sample.scenario Sample.header))
  <> [("song"%string, Sample.song); ("songName"%string, Sample.song_names_bytes)].
Proof. vm_compute. discriminate. Qed.

(** C2, amended: for the source container [{"__header__": ..., "song01":
    [[1.0,2.0],[3.0,4.0]], "song01Name1": [["alpha"],["beta"]]}] the
    transcoder produces exactly [{"song": [[1.0,2.0],[3.0,4.0]],
    "song01Name": [b"alpha", b"beta"]}], prints nothing and raises nothing:
    only the digits at the end of "song01Name1" are removed. *)
Theorem scenario_destination (output_name : string) (header : pyvalue) :
  convert_mat_to_hdf5 output_name (Sample.scenario header)
  = mk_outcome
      [("song"%string, Sample.song); ("song01Name"%string, Sample.song_names_bytes)]
      [] None.
Proof. reflexivity. Qed.

(* ================================================================= *)
(** ** Arrays are stored as they are *)

Lemma numeric_not_str (a : ndarray) :
  is_numeric (nd_dtype a) = true -> forall w, nd_dtype a <> str_ w.
Proof. intros H w Hw. rewrite Hw in H. discriminate. Qed.

(** C5 fails as stated: in [{"song01": song, "song02": song_other}] both
    keys map to "song"; the second [create_dataset] raises, and the second
    array is not stored. *)
Lemma colliding_array_is_not_stored :
  ~ (forall key a,
       In (key, VArray a)
          [("song01"%string, VArray Sample.song);
           ("song02"%string, VArray Sample.song_other)] ->
       is_numeric (nd_dtype a) = true ->
       In (mapped_key key, a)
          (dest (convert_mat_to_hdf5 "out.hdf5"
                   [("song01"%string, VArray Sample.song);
                    ("song02"%string, VArray Sample.song_other)]))).
Proof.
  intros H.
  specialize (H "song02"%string Sample.song_other (or_intror (or_introl eq_refl)) eq_refl).
  vm_compute in H. destruct H as [H|[]]. discriminate H.
Qed.

(** C5, amended: for a numeric array under a key that is not a metadata
    key, whose mapped key is not empty and is not yet the name of a dataset
    of the destination when the loop reaches the entry, the turn of the
    loop creates, under the mapped key, a dataset that is the source array
    itself (same dtype, same shape, same elements); when the loop is left,
    however it is left, that dataset is in the destination and it is the
    only one under the mapped key. *)
Theorem numeric_array_stored_verbatim
    (f : H5.file) (key : string) (a : ndarray) (rest : container) :
  is_metadata_key key = false ->
  is_numeric (nd_dtype a) = true ->
  mapped_key key <> ""%string ->
  ~ In (mapped_key key) (H5.keys f) ->
  convert_entry f (key, VArray a)
  = mk_outcome (f ++ [(mapped_key key, a)]) [] None
  /\ In (mapped_key key, a) (dest (convert_entries f ((key, VArray a) :: rest)))
  /\ (forall d,
        In (mapped_key key, d) (dest (convert_entries f ((key, VArray a) :: rest))) ->
        d = a)
  /\ forall output_name before,
       raised (convert_mat_to_hdf5 output_name before) = None ->
       dest (convert_mat_to_hdf5 output_name before) = f ->
       In (mapped_key key, a)
          (dest (convert_mat_to_hdf5 output_name (before ++ (key, VArray a) :: rest))).
Proof.
  intros Hk Hnum Hname Hfresh.
  pose proof (refusal_None f _ a Hname (numeric_not_str a Hnum) Hfresh) as Hacc.
  pose proof (convert_entry_written f key (VArray a) a Hk eq_refl Hacc) as Hturn.
  split; [exact Hturn|]. split; [now apply convert_entries_keeps|]. split.
  - intros d. rewrite convert_entries_cons; rewrite Hturn; [|reflexivity].
    cbn [dest].
    destruct (convert_entries_fresh (f ++ [(mapped_key key, a)]) rest)
      as (added & -> & _ & Hadded).
    rewrite !in_app_iff. intros [[Hin|Hin]|Hin].
    + destruct Hfresh. apply (in_map fst) in Hin. exact Hin.
    + destruct Hin as [[= <-]|[]]. reflexivity.
    + apply (in_map fst) in Hin. destruct (Hadded _ Hin) as [_ Hnot].
      destruct Hnot. unfold H5.keys. rewrite map_app, in_app_iff. right. now left.
  - intros output_name before Hbefore Hdest. unfold convert_mat_to_hdf5 in *.
    rewrite convert_entries_app, Hbefore. cbn [dest]. rewrite Hdest.
    now apply convert_entries_keeps.
Qed.

Lemma numeric_array_stored_verbatim_witness :
  convert_entry [] ("song01"%string, VArray Sample.song)
  = mk_outcome ([] ++ [(mapped_key "song01", Sample.song)]) [] None
  /\ In (mapped_key "song01", Sample.song)
        (dest (convert_entries [] [("song01"%string, VArray Sample.song);
                                   ("song02"%string, VArray Sample.song_other)]))
  /\ (forall d,
        In (mapped_key "song01", d)
           (dest (convert_entries [] [("song01"%string, VArray Sample.song);
                                      ("song02"%string, VArray Sample.song_other)])) ->
        d = Sample.song)
  /\ forall output_name before,
       raised (convert_mat_to_hdf5 output_name before) = None ->
       dest (convert_mat_to_hdf5 output_name before) = [] ->
       In (mapped_key "song01", Sample.song)
          (dest (convert_mat_to_hdf5 output_name
                   (before ++ [("song01"%string, VArray Sample.song);
                               ("song02"%string, VArray Sample.song_other)]))).
Proof.
  apply (numeric_array_stored_verbatim [] "song01" Sample.song
           [("song02"%string, VArray Sample.song_other)]).
  - reflexivity.
  - reflexivity.
  - vm_compute. discriminate.
  - simpl. auto.
Defined.

(* ================================================================= *)
(** ** The metadata filter comes before the key transform *)

Lemma metadata_key_not_empty (name : string) :
  is_metadata_key name = true -> name <> ""%string.
Proof. intros H ->. discriminate H. Qed.

(** C10 fails as stated: in [{"__header__1": song, "__header__2":
    song_other}] the second key is not a metadata key, becomes one when its
    digits are removed, and its value is recognised; it is not written,
    since the first entry took the name "__header__". *)
Lemma second_header_is_not_written :
  ~ (forall key value d,
       In (key, value)
          [("__header__1"%string, VArray Sample.song);
           ("__header__2"%string, VArray Sample.song_other)] ->
       is_metadata_key key = false ->
       is_metadata_key (strip_trailing_digits key) = true ->
       written_value value = Some d ->
       In (strip_trailing_digits key, d)
          (dest (convert_mat_to_hdf5 "out.hdf5"
                   [("__header__1"%string, VArray Sample.song);
                    ("__header__2"%string, VArray Sample.song_other)]))).
Proof.
  intros H.
  specialize (H "__header__2"%string (VArray Sample.song_other) Sample.song_other
                (or_intror (or_introl eq_refl)) eq_refl eq_refl eq_refl).
  vm_compute in H. destruct H as [H|[]]. discriminate H.
Qed.

(** C10, amended: a key that is not a metadata key but becomes one when its
    trailing digits are removed is not skipped: the turn of the loop hands
    the dataset of a recognised value to [create_dataset] under the
    stripped name, a metadata name; when that name is not yet in the
    destination and the dataset is not an array of str, the dataset is
    written under it and is in the destination when the loop is left. *)
Theorem metadata_filter_tests_original_key
    (f : H5.file) (key : string) (value : pyvalue) (d : ndarray) (rest : container) :
  is_metadata_key key = false ->
  is_metadata_key (strip_trailing_digits key) = true ->
  written_value value = Some d ->
  (forall w, nd_dtype d <> str_ w) ->
  ~ In (strip_trailing_digits key) (H5.keys f) ->
  convert_entry f (key, value)
  = mk_outcome (f ++ [(strip_trailing_digits key, d)]) [] None
  /\ In (strip_trailing_digits key, d)
        (dest (convert_entries f ((key, value) :: rest))).
Proof.
  intros Hk Hs Hw Hdtype Hfresh.
  pose proof (refusal_None f _ d (metadata_key_not_empty _ Hs) Hdtype Hfresh) as Hacc.
  rewrite <- (mapped_key_strip key (strips_to_metadata_no_LF _ Hk Hs)) in *.
  split; [now apply convert_entry_written | now apply convert_entries_keeps].
Qed.

Lemma metadata_filter_tests_original_key_witness :
  convert_entry [] ("__header__1"%string, VArray Sample.song)
  = mk_outcome ([] ++ [(strip_trailing_digits "__header__1", Sample.song)]) [] None
  /\ In (strip_trailing_digits "__header__1", Sample.song)
        (dest (convert_entries [] [("__header__1"%string, VArray Sample.song);
                                   ("__header__2"%string, VArray Sample.song_other)])).
Proof.
  apply (metadata_filter_tests_original_key [] "__header__1" (VArray Sample.song)
           Sample.song [("__header__2"%string, VArray Sample.song_other)]).
  - reflexivity.
  - reflexivity.
  - reflexivity.
  - intros w. discriminate.
  - simpl. auto.
Defined.

(* ================================================================= *)
(** ** Flattening nested text arrays *)

Section Flatten.

Lemma encode_ascii_ascii (s : string) :
  forallb_string is_ascii s = true -> encode_ascii s = Return s.
Proof.
  intros H. unfold encode_ascii.
  assert (Hnone : forall pos, first_non_ascii pos s = None).
  { induction s as [|c s IH]; intros pos; [reflexivity|].
    simpl in *. apply andb_prop in H as [Hc Hs]. rewrite Hc. now apply IH. }
  now rewrite Hnone.
Qed.

Lemma comprehension_Return {A B : Type} (f : A -> result B) (l : list A) (l' : list B) :
  Forall2 (fun x y => f x = Return y) l l' -> comprehension f l = Return l'.
Proof.
  induction 1 as [|x y l l' Hxy _ IH]; [reflexivity|].
  simpl. now rewrite Hxy, IH.
Qed.

Lemma comprehension_Raise {A B : Type} (f : A -> result B) (l : list A) :
  (exists x e, In x l /\ f x = Raise e) -> exists e, comprehension f l = Raise e.
Proof.
  intros (x & e & Hin & Hx). induction l as [|a l IH]; [destruct Hin|].
  simpl. destruct (f a) as [b|e'] eqn:Ha; [|now exists e'].
  destruct Hin as [->|Hin]; [congruence|].
  destruct (IH Hin) as [e'' ->]. now exists e''.
Qed.

Lemma comprehension_length {A B : Type} (f : A -> result B) (l : list A) (l' : list B) :
  comprehension f l = Return l' -> List.length l' = List.length l.
Proof.
  revert l'. induction l as [|a l IH]; intros l'; simpl.
  - now intros [= <-].
  - destruct (f a); [|discriminate].
    destruct (comprehension f l) as [ys|]; [|discriminate].
    intros [= <-]. simpl. now rewrite (IH ys).
Qed.

Lemma getitem0_wrapped (item : element) (s : string) :
  wrapped_text item = Some s -> getitem0 item = Return s.
Proof.
  destruct item as [[|t [|? ?]]|[|t [|? ?]]|?|?]; simpl; congruence.
Qed.

(** Wrappers of length 1 around ASCII text flatten to as many byte strings,
    in the order of the wrappers; each is the text of its wrapper, up to
    the trailing NUL bytes that dtype ['S'] does not keep. *)
Lemma convert_strings_of_ascii_wrappers (arr : list element) (texts : list string) :
  map wrapped_text arr = map Some texts ->
  Forall (fun s => forallb_string is_ascii s = true) texts ->
  _convert_strings_to_utf8 arr
  = Return {| nd_dtype := bytes_ (itemsize_for texts);
              nd_shape := [List.length arr];
              nd_data := map (fun s => Bytes (rstrip_nul s)) texts |}.
Proof.
  intros Hwrap Hascii. unfold _convert_strings_to_utf8.
  assert (Hflat : comprehension getitem0 arr = Return texts).
  { apply comprehension_Return. revert texts Hwrap Hascii.
    induction arr as [|item arr IH]; intros [|s texts]; try discriminate.
    - constructor.
    - simpl. intros [= Hitem Harr] Hall. inversion Hall; subst.
      constructor; [now apply getitem0_wrapped | now apply IH]. }
  rewrite Hflat. simpl. unfold array_S.
  assert (Henc : comprehension encode_ascii texts = Return texts).
  { apply comprehension_Return. clear -Hascii.
    induction Hascii; constructor; [now apply encode_ascii_ascii | assumption]. }
  rewrite Henc. simpl. do 3 f_equal.
  now rewrite <- (comprehension_length _ _ _ Hflat).
Qed.

Lemma convert_strings_raises (arr : list element) :
  (exists item e, In item arr /\ getitem0 item = Raise e) ->
  exists e, _convert_strings_to_utf8 arr = Raise e.
Proof.
  intros H. destruct (comprehension_Raise _ _ H) as [e He].
  exists e. unfold _convert_strings_to_utf8. now rewrite He.
Qed.

End Flatten.

(** C3, at the nested text array [[["é"]]]: its one element is a wrapper of
    length 1 around the text "é", and flattening raises
    [UnicodeEncodeError] instead of returning one byte string; the
    transcoder drops the entry with a diagnostic. *)
Theorem convert_strings_non_ascii_text :
  wrapped_text (EList [Sample.e_acute]) = Some Sample.e_acute
  /\ _convert_strings_to_utf8 [EList [Sample.e_acute]]
     = Raise (UnicodeEncodeError
         "'ascii' codec can't encode character '\xe9' in position 0: ordinal not in range(128)")
  /\ convert_mat_to_hdf5 "out.hdf5"
       [("names"%string, VObjectArray [EList [Sample.e_acute]])]
     = mk_outcome []
         ["Could not convert names to UTF-8 strings: 'ascii' codec can't encode character '\xe9' in position 0: ordinal not in range(128)"%string]
         None.
Proof. repeat split. Qed.

(* ================================================================= *)
(** ** Entries that leave no dataset *)

Section Dropped.

Implicit Types (f : H5.file) (key : string) (value : pyvalue).

(** A turn that writes nothing and raises nothing only adds its lines in
    front of those of the rest of the loop. *)
Lemma convert_entries_quiet f entry lines (rest : container) :
  convert_entry f entry = mk_outcome f lines None ->
  convert_entries f (entry :: rest)
  = mk_outcome (dest (convert_entries f rest))
      (lines ++ printed (convert_entries f rest))
      (raised (convert_entries f rest)).
Proof.
  intros H. rewrite convert_entries_cons; now rewrite H.
Qed.

(** Such a turn leaves the file and the way the loop is left as they are
    in the container without the entry. *)
Lemma convert_entries_without f entry lines (before after : container) :
  (forall f', convert_entry f' entry = mk_outcome f' lines None) ->
  dest (convert_entries f (before ++ entry :: after))
  = dest (convert_entries f (before ++ after))
  /\ raised (convert_entries f (before ++ entry :: after))
     = raised (convert_entries f (before ++ after)).
Proof.
  intros H. rewrite !convert_entries_app.
  destruct (raised (convert_entries f before)); [now split|].
  cbn zeta. now rewrite (convert_entries_quiet _ _ _ _ (H _)).
Qed.

Lemma convert_entry_strings_raise f key (arr : list element) (e : exn) :
  is_metadata_key key = false ->
  _convert_strings_to_utf8 arr = Raise e ->
  convert_entry f (key, VObjectArray arr)
  = mk_outcome f [could_not_convert (mapped_key key) e] None.
Proof. intros Hk He. unfold convert_entry. now rewrite Hk, He. Qed.

Lemma convert_entry_other f key value :
  is_ndarray value = false ->
  is_str value = false ->
  convert_entry f (key, value) = mk_outcome f [] None.
Proof.
  intros Hnd Hstr. unfold convert_entry.
  destruct (is_metadata_key key); [reflexivity|].
  now destruct value.
Qed.

End Dropped.

(** C4 fails as stated: in [[["alpha", "extra"], ["beta"]]] the first
    element is not a wrapper of length 1, and flattening does not fail. *)
Lemma long_wrapper_is_flattened :
  ~ ((exists item,
        In item Sample.long_wrapper_names /\ wrapped_text item = None) ->
     exists e, _convert_strings_to_utf8 Sample.long_wrapper_names = Raise e).
Proof.
  intros H. destruct H as [e He].
  - exists (EList ["alpha"; "extra"]%string). split; [now left | reflexivity].
  - discriminate He.
Qed.

(** C4, amended: for every source container with a nested text array, under
    a key that is not a metadata key, of which some element has no item 0
    (an empty wrapper, an empty string, a value that cannot be indexed),
    flattening raises; the exception is caught in the turn of the loop,
    which prints one diagnostic naming the mapped key and the exception and
    creates no dataset; the loop goes on with the entries after it; the
    destination, and the way the conversion ends, are those of the container
    without the entry. *)
Theorem failed_strings_entry_is_dropped
    (output_name : string) (before after : container)
    (key : string) (arr : list element) :
  is_metadata_key key = false ->
  (exists item e, In item arr /\ getitem0 item = Raise e) ->
  exists e,
    _convert_strings_to_utf8 arr = Raise e
    /\ (forall f,
          convert_entry f (key, VObjectArray arr)
          = mk_outcome f [could_not_convert (mapped_key key) e] None)
    /\ (forall f,
          convert_entries f ((key, VObjectArray arr) :: after)
          = mk_outcome (dest (convert_entries f after))
              (could_not_convert (mapped_key key) e
                 :: printed (convert_entries f after))
              (raised (convert_entries f after)))
    /\ dest (convert_mat_to_hdf5 output_name (before ++ (key, VObjectArray arr) :: after))
       = dest (convert_mat_to_hdf5 output_name (before ++ after))
    /\ raised (convert_mat_to_hdf5 output_name (before ++ (key, VObjectArray arr) :: after))
       = raised (convert_mat_to_hdf5 output_name (before ++ after)).
Proof.
  intros Hk Hitem. destruct (convert_strings_raises _ Hitem) as [e He].
  exists e. split; [exact He|].
  pose proof (fun f => convert_entry_strings_raise f key arr e Hk He) as Hturn.
  split; [exact Hturn|]. split.
  - intros f. now rewrite (convert_entries_quiet _ _ _ _ (Hturn f)).
  - unfold convert_mat_to_hdf5. now apply convert_entries_without with (lines := [could_not_convert (mapped_key key) e]).
Qed.

Lemma failed_strings_entry_is_dropped_witness :
  exists e,
    _convert_strings_to_utf8 Sample.empty_wrapper_names = Raise e
    /\ (forall f,
          convert_entry f ("song01Name1"%string, VObjectArray Sample.empty_wrapper_names)
          = mk_outcome f [could_not_convert (mapped_key "song01Name1") e] None)
    /\ (forall f,
          convert_entries f
            [("song01Name1"%string, VObjectArray Sample.empty_wrapper_names);
             ("song01"%string, VArray Sample.song)]
          = mk_outcome
              (dest (convert_entries f [("song01"%string, VArray Sample.song)]))
              (could_not_convert (mapped_key "song01Name1") e
                 :: printed (convert_entries f [("song01"%string, VArray Sample.song)]))
              (raised (convert_entries f [("song01"%string, VArray Sample.song)])))
    /\ dest (convert_mat_to_hdf5 "out.hdf5"
               ([("__header__"%string, Sample.header)]
                  ++ ("song01Name1"%string, VObjectArray Sample.empty_wrapper_names)
                  :: [("song01"%string, VArray Sample.song)]))
       = dest (convert_mat_to_hdf5 "out.hdf5"
                 ([("__header__"%string, Sample.header)]
                    ++ [("song01"%string, VArray Sample.song)]))
    /\ raised (convert_mat_to_hdf5 "out.hdf5"
                 ([("__header__"%string, Sample.header)]
                    ++ ("song01Name1"%string, VObjectArray Sample.empty_wrapper_names)
                    :: [("song01"%string, VArray Sample.song)]))
       = raised (convert_mat_to_hdf5 "out.hdf5"
                   ([("__header__"%string, Sample.header)]
                      ++ [("song01"%string, VArray Sample.song)])).
Proof.
  apply (failed_strings_entry_is_dropped "out.hdf5"
           [("__header__"%string, Sample.header)]
           [("song01"%string, VArray Sample.song)]
           "song01Name1" Sample.empty_wrapper_names).
  - reflexivity.
  - exists (EList []), (IndexError "list index out of range").
    split; [simpl; auto | reflexivity].
Defined.

(** C8 fails as stated: an array of byte strings is neither an array of
    dtype object, nor a numeric array, nor a text scalar, and the
    transcoder creates a dataset for it. *)
Lemma byte_string_array_is_written :
  ~ (has_object_dtype (VArray Sample.labels) = false ->
     is_numeric_array (VArray Sample.labels) = false ->
     is_str (VArray Sample.labels) = false ->
     dest (convert_mat_to_hdf5 "out.hdf5" [("labels"%string, VArray Sample.labels)]) = []
     /\ printed (convert_mat_to_hdf5 "out.hdf5" [("labels"%string, VArray Sample.labels)]) = []).
Proof.
  intros H. destruct H as [Hdest _]; try reflexivity. discriminate Hdest.
Qed.

(** C8, amended: for every source entry whose value is neither an array (of
    any dtype) nor a text scalar, the turn of the loop creates no dataset,
    prints nothing and raises nothing, and the conversion of the container
    is that of the container without the entry. *)
Theorem other_value_is_skipped
    (output_name : string) (before after : container)
    (key : string) (value : pyvalue) :
  is_ndarray value = false ->
  is_str value = false ->
  (forall f, convert_entry f (key, value) = mk_outcome f [] None)
  /\ convert_mat_to_hdf5 output_name (before ++ (key, value) :: after)
     = convert_mat_to_hdf5 output_name (before ++ after).
Proof.
  intros Hnd Hstr.
  pose proof (fun f => convert_entry_other f key value Hnd Hstr) as Hturn.
  split; [exact Hturn|]. unfold convert_mat_to_hdf5.
  rewrite !convert_entries_app.
  destruct (raised (convert_entries [] before)); [reflexivity|].
  cbn zeta. now rewrite (convert_entries_quiet _ _ _ _ (Hturn _)).
Qed.

Lemma other_value_is_skipped_witness :
  (forall f, convert_entry f ("song01Fs"%string, VList ["a"%string]) = mk_outcome f [] None)
  /\ convert_mat_to_hdf5 "out.hdf5"
       ([("song01"%string, VArray Sample.song)]
          ++ ("song01Fs"%string, VList ["a"%string])
          :: [("song01Name1"%string, VObjectArray Sample.song_names)])
     = convert_mat_to_hdf5 "out.hdf5"
         ([("song01"%string, VArray Sample.song)]
            ++ [("song01Name1"%string, VObjectArray Sample.song_names)]).
Proof.
  apply (other_value_is_skipped "out.hdf5"
           [("song01"%string, VArray Sample.song)]
           [("song01Name1"%string, VObjectArray Sample.song_names)]
           "song01Fs" (VList ["a"%string])); reflexivity.
Defined.

(* ================================================================= *)
(** ** Source selection and the entry point *)

Section Selection.

Variable fs : filesystem.

Lemma scan_directory_no_input (source : string) (names : list string)
    (files : list mat_file) :
  (forall file_name, In file_name names -> is_input_name file_name = false) ->
  scan_directory fs source names files = Return files.
Proof.
  induction names as [|file_name names IH]; intros H; [reflexivity|].
  simpl. pose proof (H file_name (or_introl eq_refl)) as Hname.
  unfold is_input_name in Hname.
  destruct (endswith file_name "Imputed.mat"); simpl in Hname.
  - destruct (Re.match_song_imputed file_name); [discriminate|].
    apply IH. intros ? ?. apply H. now right.
  - apply IH. intros ? ?. apply H. now right.
Qed.

Lemma get_mat_files_not_found (source : string) :
  path_exists fs source = false ->
  get_mat_files fs source = Raise file_or_path_does_not_exist.
Proof. intros H. unfold get_mat_files. now rewrite H. Qed.

Lemma get_mat_files_no_input (source : string) :
  path_exists fs source = true ->
  no_input fs source ->
  get_mat_files fs source = Raise no_valid_mat_files.
Proof.
  intros Hex [Hfile Hdir]. unfold get_mat_files. rewrite Hex, Hfile. simpl.
  destruct (path_isdir fs source); [|reflexivity].
  now rewrite (scan_directory_no_input _ _ _ (Hdir eq_refl)).
Qed.

End Selection.

(** C7: the source selector raises one failure when the path does not
    exist and another one when no input is found there (both are
    [ValueError], with different messages); on either, [main] prints the
    single line [Error: <message>], leaves no exception uncaught, and makes
    no directory and writes no file. *)
Theorem selection_failures_are_reported (fs : filesystem) (args : arguments) :
  (path_exists fs (source args) = false ->
   get_mat_files fs (source args) = Raise file_or_path_does_not_exist
   /\ main fs args = mk_run [] ["Error: File or path does not exist"%string] None)
  /\ (path_exists fs (source args) = true ->
      no_input fs (source args) ->
      get_mat_files fs (source args) = Raise no_valid_mat_files
      /\ main fs args
         = mk_run []
             ["Error: No valid .mat files found in the specified source."%string]
             None)
  /\ file_or_path_does_not_exist <> no_valid_mat_files.
Proof.
  split; [|split].
  - intros H. pose proof (get_mat_files_not_found fs _ H) as Hget.
    split; [exact Hget|]. unfold main. now rewrite Hget.
  - intros Hex Hno. pose proof (get_mat_files_no_input fs _ Hex Hno) as Hget.
    split; [exact Hget|]. unfold main. now rewrite Hget.
  - discriminate.
Qed.

Lemma selection_failures_are_reported_witness :
  main Sample.fs {| source := "missing"; destination := "hdf5" |}
  = mk_run [] ["Error: File or path does not exist"%string] None
  /\ main Sample.fs {| source := "other"; destination := "hdf5" |}
     = mk_run []
         ["Error: No valid .mat files found in the specified source."%string]
         None.
Proof.
  split.
  - apply (selection_failures_are_reported Sample.fs
             {| source := "missing"; destination := "hdf5" |}).
    reflexivity.
  - apply (selection_failures_are_reported Sample.fs
             {| source := "other"; destination := "hdf5" |}).
    + reflexivity.
    + split; [reflexivity | intros _ file_name [<-|[<-|[]]]; reflexivity].
Defined.

(* ================================================================= *)
(** ** More on the key transform *)

Section KeyTransformMore.

Open Scope string_scope.

Lemma span_digits_not_all (s : string) :
  forallb_string is_digit s = false ->
  exists ds a r, Re.span_digits s = (ds, String a r).
Proof.
  induction s as [|c s IH]; [discriminate|].
  simpl. destruct (is_digit c) eqn:Hc; simpl.
  - intros H. destruct (IH H) as (ds & a & r & ->). now exists (String c ds), a, r.
  - intros _. now exists "", c, s.
Qed.

Lemma span_digits_app_r (s t ds r : string) (a : ascii) :
  Re.span_digits s = (ds, String a r) ->
  Re.span_digits (s ++ t) = (ds, String a r ++ t).
Proof.
  revert ds. induction s as [|c s IH]; intros ds; [discriminate|].
  simpl. destruct (is_digit c) eqn:Hc.
  - destruct (Re.span_digits s) as [ds' r'] eqn:Hs. intros [= <- ->].
    now rewrite (IH _ eq_refl).
  - intros [= <- <- <-]. reflexivity.
Qed.

Lemma span_digits_app_all (s t : string) (a : ascii) :
  forallb_string is_digit s = true ->
  is_digit a = false ->
  Re.span_digits (s ++ String a t) = (s, String a t).
Proof.
  intros Hs Ha. induction s as [|c s IH]; simpl.
  - now rewrite Ha.
  - simpl in Hs. apply andb_prop in Hs as [Hc Hs]. now rewrite Hc, (IH Hs).
Qed.

Lemma sub_trailing_digits_line_feed (body : string) :
  Re.sub_trailing_digits (body ++ String LF "")
  = strip_trailing_digits body ++ String LF "".
Proof.
  unfold strip_trailing_digits.
  induction body as [|c body IH]; [reflexivity|].
  change (String c body ++ String LF "") with (String c (body ++ String LF "")).
  cbn [Re.sub_trailing_digits rstrip].
  destruct (forallb_string is_digit (String c body)) eqn:Hall.
  - unfold Re.match_digits_dollar.
    change (String c (body ++ String LF "")) with (String c body ++ String LF "").
    now rewrite (span_digits_app_all _ _ _ Hall is_digit_LF).
  - destruct (span_digits_not_all _ Hall) as (ds & a & r & Hspan).
    unfold Re.match_digits_dollar.
    change (String c (body ++ String LF "")) with (String c body ++ String LF "").
    rewrite (span_digits_app_r _ (String LF "") _ _ _ Hspan).
    assert (Hdollar : Re.at_dollar (String a r ++ String LF "") = false)
      by now destruct r.
    rewrite Hdollar.
    change (String c body ++ String LF "") with (String c (body ++ String LF "")).
    destruct ds; now rewrite IH.
Qed.

End KeyTransformMore.

(** X1: for every key that does not end in a line feed, the mapped key is
    the key cut in front of its maximal trailing run of decimal digits: the
    key is the mapped key followed by digits only, the mapped key does not
    end in a digit, and no other cut of the key has these two properties. *)
Theorem mapped_key_removes_maximal_digit_run (key : string) :
  last_char key <> Some LF ->
  (exists ds,
     key = (mapped_key key ++ ds)%string
     /\ forallb_string is_digit ds = true
     /\ forall c, last_char (mapped_key key) = Some c -> is_digit c = false)
  /\ forall prefix ds,
       key = (prefix ++ ds)%string ->
       forallb_string is_digit ds = true ->
       (forall c, last_char prefix = Some c -> is_digit c = false) ->
       prefix = mapped_key key.
Proof.
  intros HLF. rewrite (sub_trailing_digits_strip key HLF : mapped_key key = _).
  split; [apply strip_trailing_digits_spec|].
  intros prefix ds -> Hds Hprefix. symmetry.
  now apply strip_trailing_digits_unique.
Qed.

Lemma mapped_key_removes_maximal_digit_run_witness :
  (exists ds,
     "songVoltage12"%string = (mapped_key "songVoltage12" ++ ds)%string
     /\ forallb_string is_digit ds = true
     /\ forall c, last_char (mapped_key "songVoltage12") = Some c -> is_digit c = false)
  /\ forall prefix ds,
       "songVoltage12"%string = (prefix ++ ds)%string ->
       forallb_string is_digit ds = true ->
       (forall c, last_char prefix = Some c -> is_digit c = false) ->
       prefix = mapped_key "songVoltage12".
Proof.
  apply (mapped_key_removes_maximal_digit_run "songVoltage12").
  vm_compute. discriminate.
Defined.

(** X2: on a key that ends in a line feed, the transform removes the
    maximal run of decimal digits in front of that line feed and keeps the
    line feed; a key that ends in a line feed is never cut at its end. *)
Theorem mapped_key_line_feed_terminated (body : string) :
  mapped_key (body ++ String LF "")
  = (strip_trailing_digits body ++ String LF "")%string.
Proof. apply sub_trailing_digits_line_feed. Qed.

(* ================================================================= *)
(** ** More on the loop of the transcoder *)

Section LoopMore.

Implicit Types (f : H5.file) (mat : container) (key : string) (value : pyvalue).

Lemma encode_ascii_non_ascii (s : string) :
  forallb_string is_ascii s = false ->
  exists msg, encode_ascii s = Raise (UnicodeEncodeError msg).
Proof.
  intros H. unfold encode_ascii.
  assert (Hsome : forall pos, exists c start len,
             first_non_ascii pos s = Some (c, start, len)).
  { induction s as [|c s IH]; intros pos; [discriminate|].
    simpl in *. destruct (is_ascii c); simpl in H.
    - now apply IH.
    - now eexists _, _, _. }
  destruct (Hsome 0) as (c & start & len & ->). now eexists.
Qed.

Lemma encode_ascii_raises (s : string) (e : exn) :
  encode_ascii s = Raise e -> exists msg, e = UnicodeEncodeError msg.
Proof.
  unfold encode_ascii. destruct (first_non_ascii 0 s) as [[[c start] len]|].
  - intros [= <-]. now eexists.
  - discriminate.
Qed.

Lemma string__non_ascii (s : string) :
  forallb_string is_ascii s = false ->
  exists msg, string_ s = Raise (UnicodeEncodeError msg).
Proof.
  intros H. destruct (encode_ascii_non_ascii s H) as [msg Hmsg].
  exists msg. unfold string_. now rewrite Hmsg.
Qed.

End LoopMore.







Lemma convert_strings_dtype (arr : list element) (d : ndarray) :
  _convert_strings_to_utf8 arr = Return d -> exists w, nd_dtype d = bytes_ w.
Proof.
  unfold _convert_strings_to_utf8, array_S.
  destruct (comprehension getitem0 arr) as [texts|]; [simpl|discriminate].
  destruct (comprehension encode_ascii texts); [simpl|discriminate].
  intros [= <-]. now eexists.
Qed.

Lemma convert_entries_strings_accounting (f : H5.file) (mat : container) :
  (forall key value, In (key, value) mat -> has_object_dtype value = true) ->
  raised (convert_entries f mat) = None
  /\ List.length (dest (convert_entries f mat))
     + List.length (printed (convert_entries f mat))
     = List.length f
       + List.length (filter (fun entry => negb (is_metadata_key (fst entry))) mat).
Proof.
  revert f. induction mat as [|[key value] mat IH]; intros f Harr.
  - simpl. split; [reflexivity | lia].
  - assert (Hturn : raised (convert_entry f (key, value)) = None
        /\ List.length (dest (convert_entry f (key, value)))
           + List.length (printed (convert_entry f (key, value)))
           = List.length f + (if is_metadata_key key then 0 else 1)).
    { pose proof (Harr key value (or_introl eq_refl)) as Hv.
      unfold convert_entry.
      destruct (is_metadata_key key); [simpl; split; [reflexivity|lia]|].
      destruct value as [arr|a|s|b|l|]; try discriminate.
      destruct (_convert_strings_to_utf8 arr) as [d|e]; simpl.
      - unfold H5.create_dataset.
        destruct (H5.refusal f (mapped_key key) d); simpl;
          rewrite ?length_app; simpl; split; (reflexivity || lia).
      - split; [reflexivity | lia]. }
    destruct Hturn as [Hraised Hlen].
    rewrite (convert_entries_cons _ _ _ Hraised). cbn [dest printed raised fst filter].
    destruct (IH (dest (convert_entry f (key, value)))) as [Hr Hl].
    { intros k v Hin. apply (Harr k v). now right. }
    split; [exact Hr|]. rewrite length_app.
    destruct (is_metadata_key key); simpl in *; lia.
Qed.

(** X4: on a container in which every value is an array of dtype object,
    the loop of the transcoder is never left by an exception, since the
    whole handling of such an entry, [create_dataset] included, is inside
    the [try]; and every entry that is not under a metadata key is
    accounted for: it leaves either one dataset or one diagnostic. *)
Theorem nested_text_entries_written_or_reported
    (output_name : string) (mat : container) :
  (forall key value, In (key, value) mat -> has_object_dtype value = true) ->
  raised (convert_mat_to_hdf5 output_name mat) = None
  /\ List.length (dest (convert_mat_to_hdf5 output_name mat))
     + List.length (printed (convert_mat_to_hdf5 output_name mat))
     = List.length (filter (fun entry => negb (is_metadata_key (fst entry))) mat).
Proof.
  intros Harr. exact (convert_entries_strings_accounting [] mat Harr).
Qed.

Lemma nested_text_entries_written_or_reported_witness :
  raised (convert_mat_to_hdf5 "out.hdf5"
            [("song01Name1"%string, VObjectArray Sample.song_names);
             ("song01Name2"%string, VObjectArray Sample.song_names);
             ("song02Name1"%string, VObjectArray Sample.empty_wrapper_names)]) = None
  /\ List.length (dest (convert_mat_to_hdf5 "out.hdf5"
            [("song01Name1"%string, VObjectArray Sample.song_names);
             ("song01Name2"%string, VObjectArray Sample.song_names);
             ("song02Name1"%string, VObjectArray Sample.empty_wrapper_names)]))
     + List.length (printed (convert_mat_to_hdf5 "out.hdf5"
            [("song01Name1"%string, VObjectArray Sample.song_names);
             ("song01Name2"%string, VObjectArray Sample.song_names);
             ("song02Name1"%string, VObjectArray Sample.empty_wrapper_names)]))
     = List.length (filter (fun entry => negb (is_metadata_key (fst entry)))
            [("song01Name1"%string, VObjectArray Sample.song_names);
             ("song01Name2"%string, VObjectArray Sample.song_names);
             ("song02Name1"%string, VObjectArray Sample.empty_wrapper_names)]).
Proof.
  apply (nested_text_entries_written_or_reported "out.hdf5"
           [("song01Name1"%string, VObjectArray Sample.song_names);
            ("song01Name2"%string, VObjectArray Sample.song_names);
            ("song02Name1"%string, VObjectArray Sample.empty_wrapper_names)]).
  intros key value [H|[H|[H|[]]]]; injection H as _ <-; reflexivity.
Defined.

(** X5: an entry under one of the three metadata keys has no influence on
    the conversion, whatever its value: the outcome is that of the container
    without the entry. *)
Theorem metadata_entry_is_ignored
    (output_name : string) (before after : container)
    (key : string) (value : pyvalue) :
  is_metadata_key key = true ->
  convert_mat_to_hdf5 output_name (before ++ (key, value) :: after)
  = convert_mat_to_hdf5 output_name (before ++ after).
Proof.
  intros Hk. unfold convert_mat_to_hdf5. rewrite !convert_entries_app.
  destruct (raised (convert_entries [] before)); [reflexivity|].
  cbn zeta.
  now rewrite (convert_entries_quiet _ _ [] _ (convert_entry_metadata _ key value Hk)).
Qed.

Lemma metadata_entry_is_ignored_witness :
  convert_mat_to_hdf5 "out.hdf5"
    ([("song01"%string, VArray Sample.song)]
       ++ ("__version__"%string, VStr Sample.e_acute)
       :: [("song01Name1"%string, VObjectArray Sample.song_names)])
  = convert_mat_to_hdf5 "out.hdf5"
      ([("song01"%string, VArray Sample.song)]
         ++ [("song01Name1"%string, VObjectArray Sample.song_names)]).
Proof.
  apply (metadata_entry_is_ignored "out.hdf5"
           [("song01"%string, VArray Sample.song)]
           [("song01Name1"%string, VObjectArray Sample.song_names)]
           "__version__" (VStr Sample.e_acute)).
  reflexivity.
Defined.

(** X6: a text scalar with a character outside ASCII, under a key that is
    not a metadata key, ends the conversion with [UnicodeEncodeError]: the
    datasets and the lines of the entries before it stay, and no entry after
    it is looked at. *)
Theorem unencodable_text_ends_conversion
    (output_name : string) (before after : container) (key s : string) :
  is_metadata_key key = false ->
  forallb_string is_ascii s = false ->
  raised (convert_mat_to_hdf5 output_name before) = None ->
  exists msg,
    convert_mat_to_hdf5 output_name (before ++ (key, VStr s) :: after)
    = mk_outcome (dest (convert_mat_to_hdf5 output_name before))
        (printed (convert_mat_to_hdf5 output_name before))
        (Some (UnicodeEncodeError msg)).
Proof.
  intros Hk Hs Hbefore. destruct (string__non_ascii s Hs) as [msg Hmsg].
  exists msg. unfold convert_mat_to_hdf5 in *.
  rewrite convert_entries_app, Hbefore. cbn zeta.
  assert (Hturn : forall f,
    convert_entry f (key, VStr s) = mk_outcome f [] (Some (UnicodeEncodeError msg))).
  { intros f. unfold convert_entry. now rewrite Hk, Hmsg. }
  rewrite (convert_entries_cons_raise _ _ _ (UnicodeEncodeError msg));
    rewrite Hturn; [|reflexivity].
  cbn [dest printed raised]. now rewrite app_nil_r.
Qed.

Lemma unencodable_text_ends_conversion_witness :
  exists msg,
    convert_mat_to_hdf5 "out.hdf5"
      ([("song01"%string, VArray Sample.song)]
         ++ ("title"%string, VStr Sample.e_acute)
         :: [("song01Name1"%string, VObjectArray Sample.song_names)])
    = mk_outcome
        (dest (convert_mat_to_hdf5 "out.hdf5" [("song01"%string, VArray Sample.song)]))
        (printed (convert_mat_to_hdf5 "out.hdf5" [("song01"%string, VArray Sample.song)]))
        (Some (UnicodeEncodeError msg)).
Proof.
  apply (unencodable_text_ends_conversion "out.hdf5"
           [("song01"%string, VArray Sample.song)]
           [("song01Name1"%string, VObjectArray Sample.song_names)]
           "title" Sample.e_acute); reflexivity.
Defined.

(* ================================================================= *)
(** ** More on flattening *)

Section FlattenMore.

Lemma comprehension_Raise_inv {A B : Type} (f : A -> result B) (l : list A) (e : exn) :
  comprehension f l = Raise e -> exists x, In x l /\ f x = Raise e.
Proof.
  induction l as [|a l IH]; [discriminate|].
  simpl. destruct (f a) as [b|e'] eqn:Ha.
  - destruct (comprehension f l) as [ys|e'']; [discriminate|].
    intros [= <-]. destruct (IH eq_refl) as (x & Hin & Hx).
    exists x. split; [now right | exact Hx].
  - intros [= <-]. exists a. split; [now left | exact Ha].
Qed.

Lemma comprehension_first_raise {A B : Type} (f : A -> result B)
    (before after : list A) (x : A) (e : exn) :
  (forall y, In y before -> exists b, f y = Return b) ->
  f x = Raise e ->
  comprehension f (before ++ x :: after) = Raise e.
Proof.
  intros Hbefore Hx. induction before as [|y before IH]; simpl.
  - now rewrite Hx.
  - destruct (Hbefore y (or_introl eq_refl)) as [b ->]. simpl.
    rewrite IH; [reflexivity|]. intros z Hz. apply Hbefore. now right.
Qed.

Lemma comprehension_getitem0_wrapped (arr : list element) (texts : list string) :
  map wrapped_text arr = map Some texts ->
  comprehension getitem0 arr = Return texts.
Proof.
  intros Hwrap. apply comprehension_Return. revert texts Hwrap.
  induction arr as [|item arr IH]; intros [|s texts]; try discriminate.
  - constructor.
  - simpl. intros [= Hitem Harr].
    constructor; [now apply getitem0_wrapped | now apply IH].
Qed.

Lemma rstrip_nul_id (s : string) :
  last_char s <> Some NUL -> rstrip_nul s = s.
Proof.
  intros H. apply rstrip_id. intros c Hc.
  destruct (Ascii.eqb_spec NUL c) as [<-|]; [contradiction | reflexivity].
Qed.

End FlattenMore.

(** X7: a nested text array of wrappers of length 1 around ASCII texts
    that do not end in a NUL character flattens to a one-dimensional array
    of byte strings with one entry for each wrapper, in the order of the
    wrappers, the entry being the text of the wrapper; the item size is the
    length of the longest text, and at least 1. *)
Theorem wrapped_ascii_texts_are_flattened (arr : list element) (texts : list string) :
  map wrapped_text arr = map Some texts ->
  Forall (fun s => forallb_string is_ascii s = true) texts ->
  Forall (fun s => last_char s <> Some NUL) texts ->
  _convert_strings_to_utf8 arr
  = Return {| nd_dtype := bytes_ (itemsize_for texts);
              nd_shape := [List.length texts];
              nd_data := map Bytes texts |}.
Proof.
  intros Hwrap Hascii Hnul.
  rewrite (convert_strings_of_ascii_wrappers arr texts Hwrap Hascii).
  do 2 f_equal.
  - f_equal. rewrite <- (length_map wrapped_text arr), Hwrap. apply length_map.
  - clear -Hnul. induction Hnul as [|s texts Hs _ IH]; [reflexivity|].
    simpl. now rewrite (rstrip_nul_id s Hs), IH.
Qed.

Lemma wrapped_ascii_texts_are_flattened_witness :
  _convert_strings_to_utf8 [EList ["alpha"%string]; EArray ["be"%string]]
  = Return {| nd_dtype := bytes_ (itemsize_for ["alpha"%string; "be"%string]);
              nd_shape := [List.length ["alpha"%string; "be"%string]];
              nd_data := map Bytes ["alpha"%string; "be"%string] |}.
Proof.
  apply (wrapped_ascii_texts_are_flattened
           [EList ["alpha"%string]; EArray ["be"%string]]
           ["alpha"%string; "be"%string]).
  - reflexivity.
  - repeat constructor.
  - repeat constructor; vm_compute; discriminate.
Defined.

(** X8: a nested text array of wrappers of length 1 in which some text has
    a character outside ASCII is not flattened: [_convert_strings_to_utf8]
    raises [UnicodeEncodeError], and the transcoder writes no dataset for
    the entry and prints the diagnostic of that exception. *)
Theorem non_ascii_wrapped_text_drops_entry
    (f : H5.file) (key : string) (arr : list element) (texts : list string) :
  is_metadata_key key = false ->
  map wrapped_text arr = map Some texts ->
  (exists s, In s texts /\ forallb_string is_ascii s = false) ->
  exists msg,
    _convert_strings_to_utf8 arr = Raise (UnicodeEncodeError msg)
    /\ convert_entry f (key, VObjectArray arr)
       = mk_outcome f
           [could_not_convert (mapped_key key) (UnicodeEncodeError msg)] None.
Proof.
  intros Hk Hwrap (s & Hin & Hs).
  destruct (encode_ascii_non_ascii s Hs) as [msg0 Hmsg0].
  destruct (comprehension_Raise encode_ascii texts) as [e He].
  { now exists s, (UnicodeEncodeError msg0). }
  destruct (comprehension_Raise_inv _ _ _ He) as (x & _ & Hx).
  destruct (encode_ascii_raises _ _ Hx) as [msg ->].
  assert (Hflat : _convert_strings_to_utf8 arr = Raise (UnicodeEncodeError msg)).
  { unfold _convert_strings_to_utf8.
    rewrite (comprehension_getitem0_wrapped _ _ Hwrap). simpl.
    unfold array_S. now rewrite He. }
  exists msg. split; [exact Hflat|].
  now apply convert_entry_strings_raise.
Qed.

Lemma non_ascii_wrapped_text_drops_entry_witness :
  exists msg,
    _convert_strings_to_utf8 [EList ["alpha"%string]; EArray [Sample.e_acute]]
    = Raise (UnicodeEncodeError msg)
    /\ convert_entry [] ("song01Name1"%string,
                         VObjectArray [EList ["alpha"%string]; EArray [Sample.e_acute]])
       = mk_outcome []
           [could_not_convert (mapped_key "song01Name1") (UnicodeEncodeError msg)] None.
Proof.
  apply (non_ascii_wrapped_text_drops_entry [] "song01Name1"
           [EList ["alpha"%string]; EArray [Sample.e_acute]]
           ["alpha"%string; Sample.e_acute]).
  - reflexivity.
  - reflexivity.
  - exists Sample.e_acute. split; [right; left; reflexivity | reflexivity].
Defined.

(** X9: the items are taken out of all the elements before any text is
    encoded: the exception of the first element that has no item 0 is the
    one that [_convert_strings_to_utf8] raises, even when an element before
    it wraps a text that cannot be encoded. *)
Theorem indexing_failure_comes_first
    (before after : list element) (item : element) (e : exn) :
  (forall x, In x before -> exists s, getitem0 x = Return s) ->
  getitem0 item = Raise e ->
  _convert_strings_to_utf8 (before ++ item :: after) = Raise e.
Proof.
  intros Hbefore Hitem. unfold _convert_strings_to_utf8.
  now rewrite (comprehension_first_raise getitem0 before after item e Hbefore Hitem).
Qed.

Lemma indexing_failure_comes_first_witness :
  _convert_strings_to_utf8
    ([EList [Sample.e_acute]] ++ EList [] :: [EList ["beta"%string]])
  = Raise (IndexError "list index out of range").
Proof.
  apply (indexing_failure_comes_first [EList [Sample.e_acute]] [EList ["beta"%string]]
           (EList []) (IndexError "list index out of range")).
  - intros x [<-|[]]. now exists Sample.e_acute.
  - reflexivity.
Defined.

(** X10: an array of dtype object whose elements are bare texts, not
    wrappers, is flattened without failure to the first characters of the
    texts: for non-empty texts that start with an ASCII character other
    than NUL, the result has one entry of one byte for each text. *)
Theorem bare_texts_flatten_to_first_characters (texts : list string) :
  Forall (fun s => exists c rest,
            s = String c rest /\ is_ascii c = true /\ c <> NUL) texts ->
  _convert_strings_to_utf8 (map EStr texts)
  = Return {| nd_dtype := bytes_ 1;
              nd_shape := [List.length texts];
              nd_data := map (fun s => Bytes (first_character s)) texts |}.
Proof.
  intros Htexts.
  assert (Hsame : comprehension getitem0 (map EStr texts)
                  = Return (map first_character texts)).
  { apply comprehension_Return. induction Htexts as [|s texts Hs _ IH]; [constructor|].
    simpl. constructor; [|exact IH].
    destruct Hs as (c & rest & -> & _). reflexivity. }
  unfold _convert_strings_to_utf8. rewrite Hsame. simpl. unfold array_S.
  assert (Henc : comprehension encode_ascii (map first_character texts)
                 = Return (map first_character texts)).
  { apply comprehension_Return. clear Hsame.
    induction Htexts as [|s texts Hs _ IH]; [constructor|].
    simpl. constructor; [|exact IH].
    destruct Hs as (c & rest & -> & Hc & _). apply encode_ascii_ascii.
    simpl. now rewrite Hc. }
  rewrite Henc. simpl. f_equal. f_equal.
  - f_equal. unfold itemsize_for. clear -Htexts.
    induction Htexts as [|s texts Hs _ IH]; [reflexivity|].
    destruct Hs as (c & rest & -> & _). simpl in *.
    destruct (fold_right (fun s m => Nat.max (String.length s) m) 0
                (map first_character texts)); simpl in *; lia.
  - now rewrite length_map.
  - rewrite map_map. clear -Htexts.
    induction Htexts as [|s texts Hs _ IH]; [reflexivity|].
    simpl. rewrite IH. do 2 f_equal.
    destruct Hs as (c & rest & -> & _ & Hc). apply rstrip_nul_id.
    simpl. congruence.
Qed.

Lemma bare_texts_flatten_to_first_characters_witness :
  _convert_strings_to_utf8 (map EStr ["alpha"%string; "beta"%string])
  = Return {| nd_dtype := bytes_ 1;
              nd_shape := [List.length ["alpha"%string; "beta"%string]];
              nd_data := map (fun s => Bytes (first_character s))
                           ["alpha"%string; "beta"%string] |}.
Proof.
  apply (bare_texts_flatten_to_first_characters ["alpha"%string; "beta"%string]).
  repeat constructor.
  - exists "a"%char, "lpha"%string. repeat split. vm_compute. discriminate.
  - exists "b"%char, "eta"%string. repeat split. vm_compute. discriminate.
Defined.

(* ================================================================= *)
(** ** More on source selection *)

Section SelectionMore.

Open Scope string_scope.

Lemma literal_Some (lit s rest : string) :
  Re.literal lit s = Some rest -> s = lit ++ rest.
Proof.
  revert s. induction lit as [|a lit IH]; intros s; simpl.
  - now intros [= ->].
  - destruct s as [|b s]; [discriminate|].
    destruct (Ascii.eqb_spec a b) as [->|]; [|discriminate].
    intros H. now rewrite (IH _ H).
Qed.

Lemma digit_class_Some (s rest : string) :
  Re.digit_class s = Some rest ->
  exists d, is_digit d = true /\ s = String d rest.
Proof.
  destruct s as [|d s]; [discriminate|]. simpl.
  destruct (is_digit d) eqn:Hd; [|discriminate].
  intros [= <-]. now exists d.
Qed.

Lemma at_dollar_true (rest : string) :
  Re.at_dollar rest = true -> rest = "" \/ rest = String LF "".
Proof.
  destruct rest as [|c [|c' rest]]; simpl; [now left | | discriminate].
  destruct (Ascii.eqb_spec c LF) as [->|]; [now right | discriminate].
Qed.

Lemma match_song_imputed_Some (s group1 : string) :
  Re.match_song_imputed s = Some group1 ->
  group1 = substring 0 14 s
  /\ exists d1 d2 rest,
       is_digit d1 = true /\ is_digit d2 = true
       /\ (rest = "" \/ rest = String LF "")
       /\ s = "song" ++ String d1 (String d2 ("_Imputed.mat" ++ rest)).
Proof.
  unfold Re.match_song_imputed, Re.and_then.
  destruct (Re.literal "song" s) as [s1|] eqn:H1; [|discriminate].
  destruct (Re.digit_class s1) as [s2|] eqn:H2; [|discriminate].
  destruct (Re.digit_class s2) as [s3|] eqn:H3; [|discriminate].
  destruct (Re.literal "_Imputed" s3) as [s4|] eqn:H4; [|discriminate].
  destruct (Re.literal ".mat" s4) as [s5|] eqn:H5; [|discriminate].
  destruct (Re.at_dollar s5) eqn:H6; [|discriminate].
  intros [= <-]. split; [reflexivity|].
  apply literal_Some in H1, H4, H5.
  apply digit_class_Some in H2 as (d1 & Hd1 & ->), H3 as (d2 & Hd2 & ->).
  exists d1, d2, s5. subst. repeat split; try assumption.
  now apply at_dollar_true.
Qed.

Lemma is_input_name_song (d1 d2 : ascii) :
  is_digit d1 = true -> is_digit d2 = true ->
  is_input_name ("song" ++ String d1 (String d2 "_Imputed.mat")) = true.
Proof.
  intros H1 H2. unfold is_input_name, Re.match_song_imputed, Re.and_then.
  cbn -[is_digit]. rewrite H1. cbn -[is_digit]. rewrite H2. reflexivity.
Qed.

(** The loop of the scan, when every selected file loads: the selected
    names are appended in the order of the listing. *)
Lemma scan_directory_selected (fs : filesystem) (source : string)
    (m : string -> container) (names : list string) (files : list mat_file) :
  (forall file_name,
     In file_name names -> is_input_name file_name = true ->
     loadmat fs (join source file_name) = Return (m file_name)) ->
  scan_directory fs source names files
  = Return (files ++ map (selected_file m) (filter is_input_name names))%list.
Proof.
  revert files. induction names as [|file_name names IH]; intros files Hload.
  - simpl. now rewrite app_nil_r.
  - assert (Hrest : forall n, In n names -> is_input_name n = true ->
                      loadmat fs (join source n) = Return (m n)).
    { intros n Hn. apply Hload. now right. }
    pose proof (Hload file_name (or_introl eq_refl)) as Hhere.
    cbn [scan_directory filter]. unfold is_input_name in *.
    destruct (endswith file_name "Imputed.mat"); simpl in *.
    + destruct (Re.match_song_imputed file_name) as [group1|] eqn:Hm.
      * rewrite (Hhere eq_refl). simpl. rewrite (IH _ Hrest).
        destruct (match_song_imputed_Some _ _ Hm) as [-> _].
        simpl. now rewrite <- app_assoc.
      * now apply IH.
    + now apply IH.
Qed.

(** The loop of the scan, when a selected file does not load. *)
Lemma scan_directory_load_failure (fs : filesystem) (source : string)
    (before after : list string) (file_name : string) (e : exn)
    (files : list mat_file) :
  (forall n, In n before -> is_input_name n = true ->
     exists m, loadmat fs (join source n) = Return m) ->
  is_input_name file_name = true ->
  loadmat fs (join source file_name) = Raise e ->
  scan_directory fs source (before ++ file_name :: after) files = Raise e.
Proof.
  intros Hbefore Hname Hload. revert files.
  induction before as [|n before IH]; intros files.
  - simpl. unfold is_input_name in Hname.
    destruct (endswith file_name "Imputed.mat"); [|discriminate].
    destruct (Re.match_song_imputed file_name); [|discriminate].
    now rewrite Hload.
  - assert (Hrest : forall n0, In n0 before -> is_input_name n0 = true ->
                      exists m, loadmat fs (join source n0) = Return m).
    { intros n0 Hn0. apply Hbefore. now right. }
    pose proof (Hbefore n (or_introl eq_refl)) as Hn.
    simpl. unfold is_input_name in Hn.
    destruct (endswith n "Imputed.mat"); simpl in Hn; [|now apply IH].
    destruct (Re.match_song_imputed n); [|now apply IH].
    destruct (Hn eq_refl) as [m ->]. simpl. now apply IH.
Qed.

Lemma is_input_name_inv (file_name : string) :
  is_input_name file_name = true ->
  exists d1 d2,
    is_digit d1 = true /\ is_digit d2 = true
    /\ file_name = "song" ++ String d1 (String d2 "_Imputed.mat").
Proof.
  unfold is_input_name. intros [Hend Hm]%andb_prop.
  destruct (Re.match_song_imputed file_name) as [g|] eqn:Hmatch; [|discriminate].
  destruct (match_song_imputed_Some _ _ Hmatch)
    as (_ & d1 & d2 & rest & Hd1 & Hd2 & [->| ->] & ->).
  - now exists d1, d2.
  - vm_compute in Hend. discriminate.
Qed.

Lemma selected_file_name (m : string -> container) (file_name : string) :
  is_input_name file_name = true ->
  name (selected_file m file_name) ++ ".mat" = file_name.
Proof.
  intros H. destruct (is_input_name_inv _ H) as (d1 & d2 & _ & _ & ->).
  reflexivity.
Qed.

End SelectionMore.

(** X11: the scan of a directory selects exactly the names "songNN_Imputed.mat"
    with two decimal digits NN: the test [endswith('Imputed.mat')] rules out
    the name followed by a line feed, which the pattern alone would accept. *)
Theorem is_input_name_spec (file_name : string) :
  is_input_name file_name = true
  <-> exists d1 d2,
        is_digit d1 = true /\ is_digit d2 = true
        /\ file_name = ("song" ++ String d1 (String d2 "_Imputed.mat"))%string.
Proof.
  split.
  - apply is_input_name_inv.
  - intros (d1 & d2 & Hd1 & Hd2 & ->). now apply is_input_name_song.
Qed.

Lemma is_input_name_spec_witness :
  exists d1 d2,
    is_digit d1 = true /\ is_digit d2 = true
    /\ "song07_Imputed.mat"%string
       = ("song" ++ String d1 (String d2 "_Imputed.mat"))%string.
Proof.
  apply (proj1 (is_input_name_spec "song07_Imputed.mat")). reflexivity.
Defined.

(** X12: on a directory whose selected files all load, the selector returns
    one entry for each selected name, in the order of the listing; the name
    of an entry is the file name without ".mat", and its content is what
    the file at the path joined from the directory and the name loads as.
    Names that are not selected are not loaded. *)
Theorem directory_inputs_in_listing_order
    (fs : filesystem) (source : string) (m : string -> container) :
  path_exists fs source = true ->
  path_isfile fs source && endswith source ".mat" = false ->
  path_isdir fs source = true ->
  (forall file_name,
     In file_name (listdir fs source) -> is_input_name file_name = true ->
     loadmat fs (join source file_name) = Return (m file_name)) ->
  filter is_input_name (listdir fs source) <> [] ->
  get_mat_files fs source
  = Return (map (selected_file m) (filter is_input_name (listdir fs source)))
  /\ forall file_name,
       In file_name (filter is_input_name (listdir fs source)) ->
       (name (selected_file m file_name) ++ ".mat")%string = file_name.
Proof.
  intros Hex Hfile Hdir Hload Hsome. split.
  - unfold get_mat_files. rewrite Hex, Hfile, Hdir. simpl.
    rewrite (scan_directory_selected fs source m _ [] Hload). simpl.
    destruct (filter is_input_name (listdir fs source)); [contradiction | reflexivity].
  - intros file_name [_ Hsel]%filter_In. now apply selected_file_name.
Qed.

Lemma directory_inputs_in_listing_order_witness :
  get_mat_files Sample.fs "data"
  = Return (map (selected_file (fun _ => Sample.scenario Sample.header))
              (filter is_input_name (listdir Sample.fs "data")))
  /\ forall file_name,
       In file_name (filter is_input_name (listdir Sample.fs "data")) ->
       (name (selected_file (fun _ => Sample.scenario Sample.header) file_name)
          ++ ".mat")%string = file_name.
Proof.
  apply (directory_inputs_in_listing_order Sample.fs "data"
           (fun _ => Sample.scenario Sample.header)).
  - reflexivity.
  - reflexivity.
  - reflexivity.
  - intros file_name _ _. reflexivity.
  - vm_compute. discriminate.
Defined.

(** X13: when a selected file of a directory does not load, the selector
    raises the exception of the load, and the run writes nothing, not even
    for the files loaded before it: [main] prints the line [Error: ...] and
    returns if the exception is a [ValueError], and leaves it uncaught
    otherwise. *)
Theorem load_failure_ends_the_run
    (fs : filesystem) (args : arguments)
    (before after : list string) (file_name : string) (e : exn) :
  path_exists fs (source args) = true ->
  path_isfile fs (source args) && endswith (source args) ".mat" = false ->
  path_isdir fs (source args) = true ->
  listdir fs (source args) = before ++ file_name :: after ->
  (forall n, In n before -> is_input_name n = true ->
     exists m, loadmat fs (join (source args) n) = Return m) ->
  is_input_name file_name = true ->
  loadmat fs (join (source args) file_name) = Raise e ->
  get_mat_files fs (source args) = Raise e
  /\ main fs args
     = if is_ValueError e then mk_run [] [error_line e] None
       else mk_run [] [] (Some e).
Proof.
  intros Hex Hfile Hdir Hlist Hbefore Hname Hload.
  assert (Hget : get_mat_files fs (source args) = Raise e).
  { unfold get_mat_files. rewrite Hex, Hfile, Hdir, Hlist. simpl.
    now rewrite (scan_directory_load_failure fs _ before after file_name e []
                   Hbefore Hname Hload). }
  split; [exact Hget|]. unfold main. now rewrite Hget.
Qed.

Lemma load_failure_ends_the_run_witness :
  get_mat_files Sample.fs_unreadable "data"
  = Raise (TypeError "Expecting miMATRIX type here, got 0")
  /\ main Sample.fs_unreadable {| source := "data"; destination := "hdf5" |}
     = if is_ValueError (TypeError "Expecting miMATRIX type here, got 0")
       then mk_run [] [error_line (TypeError "Expecting miMATRIX type here, got 0")] None
       else mk_run [] [] (Some (TypeError "Expecting miMATRIX type here, got 0")).
Proof.
  apply (load_failure_ends_the_run Sample.fs_unreadable
           {| source := "data"; destination := "hdf5" |}
           ["song01_Imputed.mat"%string] [] "song02_Imputed.mat").
  - reflexivity.
  - reflexivity.
  - reflexivity.
  - reflexivity.
  - intros n [<-|[]] _. now eexists.
  - reflexivity.
  - reflexivity.
Defined.

Section Paths.

Open Scope string_scope.

Lemma length_append (s t : string) :
  String.length (s ++ t) = String.length s + String.length t.
Proof. induction s as [|c s IH]; simpl; [reflexivity | now rewrite IH]. Qed.

Lemma append_assoc (s t u : string) : (s ++ t) ++ u = s ++ t ++ u.
Proof. induction s as [|c s IH]; simpl; [reflexivity | now rewrite IH]. Qed.

Lemma substring_all (s : string) : substring 0 (String.length s) s = s.
Proof. induction s as [|c s IH]; simpl; [reflexivity | now rewrite IH]. Qed.

Lemma substring_append_l (s t : string) :
  substring 0 (String.length s) (s ++ t) = s.
Proof.
  induction s as [|c s IH]; simpl; [now destruct t | now rewrite IH].
Qed.

Lemma substring_append_r (s t : string) :
  substring (String.length s) (String.length t) (s ++ t) = t.
Proof.
  induction s as [|c s IH]; simpl; [apply substring_all | exact IH].
Qed.

Lemma endswith_append (s t : string) : endswith (s ++ t) t = true.
Proof.
  unfold endswith. rewrite length_append.
  replace (String.length s + String.length t - String.length t)
    with (String.length s) by lia.
  rewrite substring_append_r, String.eqb_refl.
  apply andb_true_intro. split; [apply Nat.leb_le; lia | reflexivity].
Qed.

Lemma rfind_append (c : ascii) (s t : string) :
  rfind c (s ++ t)
  = match rfind c t with
    | Some i => Some (String.length s + i)
    | None => rfind c s
    end.
Proof.
  induction s as [|a s IH]; simpl.
  - now destruct (rfind c t).
  - rewrite IH. now destruct (rfind c t).
Qed.

Lemma basename_append (dir file : string) :
  dir = "" \/ (exists d, dir = d ++ "/") ->
  rfind sep file = None ->
  basename (dir ++ file) = file.
Proof.
  intros Hdir Hfile. unfold basename. rewrite rfind_append, Hfile.
  destruct Hdir as [->|[d ->]]; [reflexivity|].
  rewrite rfind_append. simpl rfind. cbv iota beta.
  assert (Hp : S (String.length d + 0) = String.length (d ++ "/"))
    by (rewrite length_append; simpl; lia).
  rewrite Hp, (length_append (d ++ "/") file).
  replace (String.length (d ++ "/") + String.length file - String.length (d ++ "/"))
    with (String.length file) by lia.
  apply substring_append_r.
Qed.

Lemma splitext_append_mat (stem : string) :
  rfind sep stem = None ->
  forallb_string (Ascii.eqb extsep) stem = false ->
  splitext (stem ++ ".mat") = (stem, ".mat").
Proof.
  intros Hsep Hdots. unfold splitext.
  rewrite !rfind_append. simpl rfind. rewrite Hsep.
  replace (String.length stem + 0) with (String.length stem) by lia.
  rewrite Nat.sub_0_r, substring_append_l, Hdots. simpl.
  rewrite length_append.
  replace (String.length stem + String.length ".mat" - String.length stem)
    with (String.length ".mat") by lia.
  now rewrite substring_append_r.
Qed.

End Paths.

(** X14: a single file whose name ends in ".mat" is selected whatever the
    rest of its name is (the pattern "songNN_Imputed" is for directories
    only); the entry is named by the base name of the file without ".mat".
    Here the path is a directory part, empty or ending in "/", followed by a
    stem without "/" that is not made of dots only, and ".mat". *)
Theorem single_file_is_named_by_its_stem
    (fs : filesystem) (dir stem : string) (m : container) :
  dir = ""%string \/ (exists d, dir = (d ++ "/")%string) ->
  rfind sep stem = None ->
  forallb_string (Ascii.eqb extsep) stem = false ->
  path_exists fs (dir ++ stem ++ ".mat")%string = true ->
  path_isfile fs (dir ++ stem ++ ".mat")%string = true ->
  loadmat fs (dir ++ stem ++ ".mat")%string = Return m ->
  get_mat_files fs (dir ++ stem ++ ".mat")%string
  = Return [{| name := stem; mat := m |}].
Proof.
  intros Hdir Hsep Hdots Hex Hfile Hload. unfold get_mat_files.
  rewrite Hex, Hfile, <- append_assoc, endswith_append, append_assoc, Hload.
  simpl. rewrite basename_append, splitext_append_mat; try assumption.
  - reflexivity.
  - now rewrite rfind_append, Hsep.
Qed.

Lemma single_file_is_named_by_its_stem_witness :
  get_mat_files Sample.fs_file ("data/" ++ "rec" ++ ".mat")%string
  = Return [{| name := "rec"; mat := Sample.scenario Sample.header |}].
Proof.
  apply (single_file_is_named_by_its_stem Sample.fs_file "data/" "rec").
  - right. now exists "data"%string.
  - reflexivity.
  - reflexivity.
  - reflexivity.
  - reflexivity.
  - reflexivity.
Defined.

(** X15: a single file whose base name is dots followed by ".mat" (".mat"
    itself, for one) has no extension for [os.path.splitext]: its entry is
    named by the whole base name, ".mat" included. *)
Theorem dot_file_keeps_its_extension
    (fs : filesystem) (dir dots : string) (m : container) :
  dir = ""%string \/ (exists d, dir = (d ++ "/")%string) ->
  forallb_string (Ascii.eqb extsep) dots = true ->
  path_exists fs (dir ++ dots ++ ".mat")%string = true ->
  path_isfile fs (dir ++ dots ++ ".mat")%string = true ->
  loadmat fs (dir ++ dots ++ ".mat")%string = Return m ->
  get_mat_files fs (dir ++ dots ++ ".mat")%string
  = Return [{| name := (dots ++ ".mat")%string; mat := m |}].
Proof.
  intros Hdir Hdots Hex Hfile Hload.
  assert (Hsep : rfind sep dots = None).
  { clear -Hdots. induction dots as [|c dots IH]; [reflexivity|].
    cbn [forallb_string] in Hdots. apply andb_prop in Hdots as [Hc Hrest].
    cbn [rfind]. rewrite (IH Hrest).
    apply Ascii.eqb_eq in Hc as <-. reflexivity. }
  unfold get_mat_files.
  rewrite Hex, Hfile, <- append_assoc, endswith_append, append_assoc, Hload.
  simpl. rewrite basename_append; [|assumption | now rewrite rfind_append, Hsep].
  unfold splitext. rewrite !rfind_append. simpl rfind. rewrite Hsep.
  replace (String.length dots + 0) with (String.length dots) by lia.
  now rewrite Nat.sub_0_r, substring_append_l, Hdots.
Qed.

Lemma dot_file_keeps_its_extension_witness :
  get_mat_files
    {| path_exists := fun _ => true; path_isfile := fun _ => true;
       path_isdir := fun _ => false; listdir := fun _ => [];
       loadmat := fun _ => Return (Sample.scenario Sample.header) |}
    ("data/" ++ "" ++ ".mat")%string
  = Return [{| name := ("" ++ ".mat")%string; mat := Sample.scenario Sample.header |}].
Proof.
  apply (dot_file_keeps_its_extension _ "data/" ""); try reflexivity.
  right. now exists "data"%string.
Defined.

(* ================================================================= *)
(** ** The orchestrator and the entry point *)

Section Orchestrator.

Lemma convert_files_all (destination : string) (mat_files : list mat_file) :
  (forall mf, In mf mat_files -> file_raised destination mf = None) ->
  convert_files destination mat_files
  = mk_run (map (written_file destination) mat_files)
      (flat_map (file_lines destination) mat_files) None.
Proof.
  induction mat_files as [|mf rest IH]; intros Hall; [reflexivity|].
  simpl. pose proof (Hall mf (or_introl eq_refl)) as Hmf.
  unfold file_raised in Hmf. rewrite Hmf.
  rewrite IH; [reflexivity|]. intros mf' Hin. apply Hall. now right.
Qed.

Lemma convert_files_failure (destination : string)
    (before after : list mat_file) (mf : mat_file) (e : exn) :
  (forall mf', In mf' before -> file_raised destination mf' = None) ->
  file_raised destination mf = Some e ->
  convert_files destination (before ++ mf :: after)
  = mk_run (map (written_file destination) before ++ [written_file destination mf])
      (flat_map (file_lines destination) before ++ file_lines destination mf)
      (Some e).
Proof.
  intros Hbefore Hmf. induction before as [|mf' before IH].
  - simpl. unfold file_raised in Hmf. now rewrite Hmf.
  - simpl. pose proof (Hbefore mf' (or_introl eq_refl)) as Hmf'.
    unfold file_raised in Hmf'. rewrite Hmf'.
    rewrite IH; [|intros ? ?; apply Hbefore; now right].
    simpl. unfold file_lines at 3. now rewrite app_assoc.
Qed.

End Orchestrator.

(** X16: when the selector returns and no conversion raises, the run makes
    the destination directory if it does not exist, then writes one file
    for each selected input, in the order of the selector, at the path
    joined from the destination and the name of the input followed by
    ".hdf5", each converted from an empty file; it prints the diagnostics of
    the conversions and then "Conversion completed successfully.". *)
Theorem main_converts_every_input
    (fs : filesystem) (args : arguments) (mat_files : list mat_file) :
  get_mat_files fs (source args) = Return mat_files ->
  (forall mf, In mf mat_files -> file_raised (destination args) mf = None) ->
  main fs args
  = mk_run
      (made_directory fs (destination args)
         ++ map (written_file (destination args)) mat_files)
      (flat_map (file_lines (destination args)) mat_files
         ++ ["Conversion completed successfully."%string])
      None.
Proof.
  intros Hget Hall. unfold main, mat_to_hdf5. rewrite Hget.
  rewrite (convert_files_all _ _ Hall). cbn [uncaught effects stdout].
  unfold made_directory. now destruct (path_exists fs (destination args)).
Qed.

Lemma main_converts_every_input_witness :
  main Sample.fs {| source := "data"; destination := "hdf5" |}
  = mk_run
      (made_directory Sample.fs "hdf5"
         ++ map (written_file "hdf5")
              [{| name := "song01_Imputed"; mat := Sample.scenario Sample.header |};
               {| name := "song02_Imputed"; mat := Sample.scenario Sample.header |}])
      (flat_map (file_lines "hdf5")
         [{| name := "song01_Imputed"; mat := Sample.scenario Sample.header |};
          {| name := "song02_Imputed"; mat := Sample.scenario Sample.header |}]
         ++ ["Conversion completed successfully."%string])
      None.
Proof.
  apply (main_converts_every_input Sample.fs
           {| source := "data"; destination := "hdf5" |}).
  - reflexivity.
  - intros mf [<-|[<-|[]]]; reflexivity.
Defined.

(** X17: when the conversion of an input raises a [ValueError] (as the
    encoding of a text scalar does), the run stops there: the files of the
    inputs before it and the file of the input itself, with the datasets
    written until the exception, are left behind, no later input is
    converted, and [main] prints the line [Error: ...] instead of the
    message of success, and returns. *)
Theorem main_reports_failed_conversion
    (fs : filesystem) (args : arguments)
    (before after : list mat_file) (mf : mat_file) (e : exn) :
  get_mat_files fs (source args) = Return (before ++ mf :: after) ->
  (forall mf', In mf' before -> file_raised (destination args) mf' = None) ->
  file_raised (destination args) mf = Some e ->
  is_ValueError e = true ->
  main fs args
  = mk_run
      (made_directory fs (destination args)
         ++ map (written_file (destination args)) before
         ++ [written_file (destination args) mf])
      (flat_map (file_lines (destination args)) before
         ++ file_lines (destination args) mf
         ++ [error_line e])
      None.
Proof.
  intros Hget Hbefore Hmf He. unfold main, mat_to_hdf5. rewrite Hget.
  rewrite (convert_files_failure _ _ _ _ _ Hbefore Hmf).
  cbn [uncaught effects stdout]. rewrite He, <- app_assoc.
  unfold made_directory. now destruct (path_exists fs (destination args)).
Qed.

Lemma main_reports_failed_conversion_witness :
  exists e,
    main Sample.fs_untitled {| source := "data"; destination := "hdf5" |}
    = mk_run
        (made_directory Sample.fs_untitled "hdf5"
           ++ map (written_file "hdf5")
                [{| name := "song01_Imputed"; mat := Sample.scenario Sample.header |}]
           ++ [written_file "hdf5"
                 {| name := "song02_Imputed"; mat := Sample.untitled |}])
        (flat_map (file_lines "hdf5")
           [{| name := "song01_Imputed"; mat := Sample.scenario Sample.header |}]
           ++ file_lines "hdf5" {| name := "song02_Imputed"; mat := Sample.untitled |}
           ++ [error_line e])
        None.
Proof.
  eexists.
  apply (main_reports_failed_conversion Sample.fs_untitled
           {| source := "data"; destination := "hdf5" |}
           [{| name := "song01_Imputed"; mat := Sample.scenario Sample.header |}] []
           {| name := "song02_Imputed"; mat := Sample.untitled |}).
  - reflexivity.
  - intros mf' [<-|[]]. reflexivity.
  - reflexivity.
  - reflexivity.
Defined.

(** X18: [main] never leaves a [ValueError] uncaught, wherever it was
    raised: by the selector, by the load of a file or by a conversion. *)
Theorem main_catches_every_ValueError (fs : filesystem) (args : arguments) (e : exn) :
  uncaught (main fs args) = Some e -> is_ValueError e = false.
Proof.
  unfold main. destruct (get_mat_files fs (source args)) as [mat_files|e0].
  - destruct (uncaught (mat_to_hdf5 fs mat_files (destination args))) as [e1|] eqn:Hu.
    + destruct (is_ValueError e1) eqn:He1.
      * discriminate.
      * rewrite Hu. now intros [= <-].
    + discriminate.
  - destruct (is_ValueError e0) eqn:He0.
    + discriminate.
    + now intros [= <-].
Qed.

Lemma main_catches_every_ValueError_witness :
  is_ValueError (TypeError "Expecting miMATRIX type here, got 0") = false.
Proof.
  apply (main_catches_every_ValueError Sample.fs_unreadable
           {| source := "data"; destination := "hdf5" |}).
  reflexivity.
Defined.

(* ================================================================= *)
(** ** Datasets that are refused *)

Section Refused.

Lemma refusal_taken (f : H5.file) (name : string) (d : ndarray) :
  name <> ""%string ->
  (forall w, nd_dtype d <> str_ w) ->
  In name (H5.keys f) ->
  H5.refusal f name d = Some H5.name_already_exists.
Proof.
  intros Hname Hdtype Hin. unfold H5.refusal.
  assert (Hrest : (if (name =? "")%string
                   then Some (TypeError "expected bytes, str found")
                   else if H5.contains f name then Some H5.name_already_exists
                        else None) = Some H5.name_already_exists).
  { destruct (String.eqb_spec name "") as [->|_]; [contradiction|].
    apply contains_In in Hin. now rewrite Hin. }
  destruct (nd_dtype d) eqn:Hd; try exact Hrest. now destruct (Hdtype itemsize).
Qed.

End Refused.

(** X19: the transcoder does not guard against two source keys with the
    same mapped key (keys that differ in their trailing digits only, for
    one).  When the mapped key of an entry is already the name of a dataset,
    [create_dataset] raises: for an array the exception leaves the loop,
    that call being outside any [try]; for a nested text array that
    flattens it is caught and printed as a diagnostic.  No dataset is
    written in either case. *)
Theorem colliding_key_is_refused (f : H5.file) (key : string) :
  is_metadata_key key = false ->
  mapped_key key <> ""%string ->
  In (mapped_key key) (H5.keys f) ->
  (forall a,
     (forall w, nd_dtype a <> str_ w) ->
     convert_entry f (key, VArray a)
     = mk_outcome f [] (Some H5.name_already_exists))
  /\ (forall arr d,
        _convert_strings_to_utf8 arr = Return d ->
        convert_entry f (key, VObjectArray arr)
        = mk_outcome f
            [could_not_convert (mapped_key key) H5.name_already_exists] None).
Proof.
  intros Hk Hname Hin. split.
  - intros a Hdtype. unfold convert_entry. rewrite Hk.
    now rewrite (create_dataset_refused _ _ _ _ (refusal_taken _ _ _ Hname Hdtype Hin)).
  - intros arr d Hflat. unfold convert_entry. rewrite Hk, Hflat. simpl.
    destruct (convert_strings_dtype _ _ Hflat) as [w Hw].
    rewrite (create_dataset_refused _ _ _ H5.name_already_exists); [reflexivity|].
    apply refusal_taken; [exact Hname | | exact Hin].
    intros w'. rewrite Hw. discriminate.
Qed.

Lemma colliding_key_is_refused_witness :
  (forall a,
     (forall w, nd_dtype a <> str_ w) ->
     convert_entry [("song"%string, Sample.song)] ("song02"%string, VArray a)
     = mk_outcome [("song"%string, Sample.song)] [] (Some H5.name_already_exists))
  /\ (forall arr d,
        _convert_strings_to_utf8 arr = Return d ->
        convert_entry [("song"%string, Sample.song)] ("song02"%string, VObjectArray arr)
        = mk_outcome [("song"%string, Sample.song)]
            [could_not_convert (mapped_key "song02") H5.name_already_exists] None).
Proof.
  apply (colliding_key_is_refused [("song"%string, Sample.song)] "song02").
  - reflexivity.
  - vm_compute. discriminate.
  - vm_compute. now left.
Defined.

(** X20: the names of the datasets of a destination are pairwise different,
    and none of them is empty: a dataset is added only when
    [create_dataset] accepts its name. *)
Theorem destination_names_are_unique (output_name : string) (mat : container) :
  NoDup (H5.keys (dest (convert_mat_to_hdf5 output_name mat)))
  /\ ~ In ""%string (H5.keys (dest (convert_mat_to_hdf5 output_name mat))).
Proof.
  unfold convert_mat_to_hdf5.
  destruct (convert_entries_fresh [] mat) as (added & -> & Hnodup & Hadded).
  simpl. split; [exact Hnodup|].
  intros Hin. now destruct (Hadded _ Hin) as [Hne _].
Qed.

(** X21: an array of str (dtype 'U') under a key that is not a metadata key
    ends the conversion with a [TypeError], which is not a [ValueError]:
    [create_dataset] has no type for it and the call is outside any [try].
    The datasets and the lines of the entries before it stay, and no entry
    after it is looked at. *)
Theorem array_of_str_ends_conversion
    (output_name : string) (before after : container)
    (key : string) (a : ndarray) (w : nat) :
  is_metadata_key key = false ->
  nd_dtype a = str_ w ->
  raised (convert_mat_to_hdf5 output_name before) = None ->
  exists msg,
    convert_mat_to_hdf5 output_name (before ++ (key, VArray a) :: after)
    = mk_outcome (dest (convert_mat_to_hdf5 output_name before))
        (printed (convert_mat_to_hdf5 output_name before))
        (Some (TypeError msg))
    /\ is_ValueError (TypeError msg) = false.
Proof.
  intros Hk Hw Hbefore. eexists. split; [|reflexivity].
  unfold convert_mat_to_hdf5 in *.
  rewrite convert_entries_app, Hbefore. cbn zeta.
  assert (Hturn : forall f,
    convert_entry f (key, VArray a)
    = mk_outcome f []
        (Some (TypeError ("No conversion path for dtype: dtype('<U" ++ dec w ++ "')")))).
  { intros f. unfold convert_entry, H5.create_dataset, H5.refusal.
    now rewrite Hk, Hw. }
  rewrite (convert_entries_cons_raise _ _ _ _ (f_equal raised (Hturn _))).
  rewrite Hturn. cbn [dest printed raised]. now rewrite app_nil_r.
Qed.

Lemma array_of_str_ends_conversion_witness :
  exists msg,
    convert_mat_to_hdf5 "out.hdf5"
      ([("song01"%string, VArray Sample.song)]
         ++ ("song01Title"%string, VArray Sample.song_title)
         :: [("song01Name1"%string, VObjectArray Sample.song_names)])
    = mk_outcome
        (dest (convert_mat_to_hdf5 "out.hdf5" [("song01"%string, VArray Sample.song)]))
        (printed (convert_mat_to_hdf5 "out.hdf5" [("song01"%string, VArray Sample.song)]))
        (Some (TypeError msg))
    /\ is_ValueError (TypeError msg) = false.
Proof.
  apply (array_of_str_ends_conversion "out.hdf5"
           [("song01"%string, VArray Sample.song)]
           [("song01Name1"%string, VObjectArray Sample.song_names)]
           "song01Title" Sample.song_title 5); reflexivity.
Defined.
